(** * sigtryggr: country detection endpoint and redirect utilities

    A shallow embedding of the two JavaScript sources of the repository:

    - the API endpoint ([isValidCountryCode], [getClientIP], [detectCountry],
      [handler]), in module [GeoApi];
    - [utils.js] ([isValidUrl], [loadConfig], [getDefaultConfig]), in module
      [Utils].

    JavaScript exceptions are explicit: a computation that may throw has a
    result in [Result], and [try_catch] is the [try { } catch { }] block. *)

From Stdlib Require Import String Ascii List Bool NArith ZArith Lia.
From Stdlib Require DecimalString.
Import ListNotations.

Local Open Scope string_scope.
Local Open Scope list_scope.

(* ================================================================== *)
(** * Exceptions *)

(** A thrown [Error] object: its constructor name and its [message]. What
    the platform throws is of this kind; a value that is no [Error] object,
    thrown by a conversion method of the caller's own, is not represented. *)
Record JsError : Type := mkError { err_name : string; err_message : string }.

Inductive Result (A : Type) : Type :=
| Return (a : A)
| Throw (e : JsError).

Arguments Return {A} a.
Arguments Throw {A} e.

Definition bind {A B : Type} (c : Result A) (k : A -> Result B) : Result B :=
  match c with
  | Return a => k a
  | Throw e => Throw e
  end.

Definition try_catch {A : Type} (body : Result A) (handler : JsError -> Result A)
  : Result A :=
  match body with
  | Return a => Return a
  | Throw e => handler e
  end.

Declare Scope js_scope.
Delimit Scope js_scope with js.
Notation "x <- c ;; k" := (bind c (fun x => k))
  (at level 61, c at next level, right associativity) : js_scope.
Local Open Scope js_scope.

Definition TypeError (msg : string) : JsError := mkError "TypeError" msg.

(* ================================================================== *)
(** * Strings

    A string is a sequence of code units below 256 (Latin-1). The case
    mappings are those of JavaScript on that range: the ASCII letters, the
    accented letters 192 to 222 and 224 to 254 (the signs 215 and 247 stay),
    and the sharp s (223), whose uppercase is the two letters ["SS"]. Two
    letters have an uppercase form above 255, the micro sign (181) and the y
    with diaeresis (255): they are left as they are, which no test on the
    letters [A] to [Z] can tell apart. [trim] removes the white space and
    line terminators that exist below 256. *)

Module Str.

Definition code (c : ascii) : nat := nat_of_ascii c.

Definition between (lo hi : nat) (c : ascii) : bool :=
  Nat.leb lo (code c) && Nat.leb (code c) hi.

Definition isUpper : ascii -> bool := between 65 90.
Definition isLower : ascii -> bool := between 97 122.
Definition isDigit : ascii -> bool := between 48 57.
Definition isAlpha (c : ascii) : bool := isUpper c || isLower c.

(** The capital and small accented letters of Latin-1. *)
Definition isUpperLatin (c : ascii) : bool :=
  between 192 222 c && negb (Nat.eqb (code c) 215).
Definition isLowerLatin (c : ascii) : bool :=
  between 224 254 c && negb (Nat.eqb (code c) 247).

Definition upper (c : ascii) : ascii :=
  if isLower c || isLowerLatin c then ascii_of_nat (code c - 32) else c.

Definition lower (c : ascii) : ascii :=
  if isUpper c || isUpperLatin c then ascii_of_nat (code c + 32) else c.

Fixpoint map (f : ascii -> ascii) (s : string) : string :=
  match s with
  | EmptyString => EmptyString
  | String c r => String (f c) (map f r)
  end.

(** [s.toUpperCase()] *)
Fixpoint toUpperCase (s : string) : string :=
  match s with
  | EmptyString => EmptyString
  | String c r =>
      if Nat.eqb (code c) 223 then String "S" (String "S" (toUpperCase r))
      else String (upper c) (toUpperCase r)
  end.

(** [s.toLowerCase()] *)
Definition toLowerCase : string -> string := map lower.

(** TAB, LF, VT, FF, CR, SPACE and NO-BREAK SPACE *)
Definition isWhiteSpace (c : ascii) : bool :=
  between 9 13 c || Nat.eqb (code c) 32 || Nat.eqb (code c) 160.

Fixpoint trimStart (s : string) : string :=
  match s with
  | String c r => if isWhiteSpace c then trimStart r else s
  | EmptyString => EmptyString
  end.

Fixpoint trimEnd (s : string) : string :=
  match s with
  | EmptyString => EmptyString
  | String c r =>
      match trimEnd r with
      | EmptyString => if isWhiteSpace c then EmptyString else String c EmptyString
      | r' => String c r'
      end
  end.

(** [s.trim()] *)
Definition trim (s : string) : string := trimEnd (trimStart s).

(** [s.startsWith(p)] *)
Definition startsWith (s p : string) : bool := String.prefix p s.

(** [s.includes(sub)] *)
Fixpoint includes (s sub : string) : bool :=
  String.prefix sub s ||
  match s with
  | EmptyString => false
  | String _ r => includes r sub
  end.

(** [s.split(sep)[0]]: the text before the first [sep] *)
Fixpoint beforeFirst (sep : ascii) (s : string) : string :=
  match s with
  | EmptyString => EmptyString
  | String c r => if Ascii.eqb c sep then EmptyString else String c (beforeFirst sep r)
  end.

(** The decimal text of a natural number, as [String(n)] gives it. *)
Definition decimal (n : N) : string :=
  DecimalString.NilZero.string_of_uint (N.to_uint n).

End Str.

(* ================================================================== *)
(** * Values *)

(** The values a header, a query parameter or an argument can hold.

    - A number is kept as what this code can observe of it: whether it is
      truthy (neither 0 nor NaN) and the text [String()] gives for it.
    - An object that is not an array is kept as the outcome of [String()] on
      it: the text (["[object Object]"] for a plain object), or the exception
      the conversion throws (a [TypeError] for an object with no usable
      [toString]/[valueOf], as [Object.create(null)]).

    Symbols and BigInts are not represented. *)
#[warnings="-register-all"]
Inductive JsValue : Type :=
| JUndefined
| JNull
| JBool (b : bool)
| JNum (nonzero : bool) (text : string)
| JStr (s : string)
| JArr (items : list JsValue)
| JObj (conv : Result string).

(** [typeof v] *)
Definition typeof (v : JsValue) : string :=
  match v with
  | JUndefined => "undefined"
  | JNull => "object"
  | JBool _ => "boolean"
  | JNum _ _ => "number"
  | JStr _ => "string"
  | JArr _ => "object"
  | JObj _ => "object"
  end.

(** [ToBoolean]: the test of [if (v)], [!v] and [v || w] *)
Definition truthy (v : JsValue) : bool :=
  match v with
  | JUndefined | JNull => false
  | JBool b => b
  | JNum nonzero _ => nonzero
  | JStr s => negb (s =? "")
  | JArr _ | JObj _ => true
  end.

(** [String(v)]. An array is joined with [","], its [undefined] and [null]
    elements giving the empty text; the first element whose conversion throws
    makes the whole conversion throw. *)
Fixpoint ToString (v : JsValue) : Result string :=
  match v with
  | JUndefined => Return "undefined"
  | JNull => Return "null"
  | JBool b => Return (if b then "true" else "false")
  | JNum _ text => Return text
  | JStr s => Return s
  | JArr items =>
      (fix join (l : list JsValue) : Result string :=
         match l with
         | [] => Return ""
         | x :: rest =>
             sx <- match x with
                   | JUndefined | JNull => Return ""
                   | _ => ToString x
                   end ;;
             match rest with
             | [] => Return sx
             | _ :: _ => sr <- join rest ;; Return (sx ++ "," ++ sr)%string
             end
         end) items
  | JObj conv => conv
  end.

(** [v === s] for a string literal [s] *)
Definition strictEqStr (v : JsValue) (s : string) : bool :=
  match v with
  | JStr t => t =? s
  | _ => false
  end.

(* ================================================================== *)
(** * Objects used as maps

    An object with string keys is the list of its own properties in creation
    order; where a key occurs twice the first pair is the property. The
    integer-like keys, which [for (key in o)] and [Object.keys] visit first,
    are kept in place: every use of these loops below filters the keys by a
    substring test on letters, which no integer-like key passes. *)

Definition JsObject : Type := list (string * JsValue).

(** [o[key]] *)
Fixpoint get (o : JsObject) (key : string) : JsValue :=
  match o with
  | [] => JUndefined
  | (k, v) :: rest => if k =? key then v else get rest key
  end.

Fixpoint keys_from (seen : list string) (o : JsObject) : list string :=
  match o with
  | [] => []
  | (k, _) :: rest =>
      if existsb (String.eqb k) seen then keys_from seen rest
      else k :: keys_from (k :: seen) rest
  end.

(** [Object.keys(o)], also the order of [for (key in o)] *)
Definition keys (o : JsObject) : list string := keys_from [] o.

(** [process.env] (the global [process] exists): the one variable both
    files branch on. *)
Record ProcessEnv : Type := { NODE_ENV : option string }.

Definition env_is (env : ProcessEnv) (mode : string) : bool :=
  match NODE_ENV env with
  | Some v => v =? mode
  | None => false
  end.

(* ================================================================== *)
(** * The API endpoint (country detection)

    [Logger] writes to the console only; its calls are left out. What it
    prints it first passes through [JSON.stringify], which returns on
    strings and arrays of strings; the statements about [handler] are about
    requests whose header values are of these types, or about a response
    once it is sent. *)

Module GeoApi.

(** [/^[A-Z]{2}$/.test(code)] *)
Definition alpha2_test (code : string) : bool :=
  match code with
  | String a (String b EmptyString) => Str.isUpper a && Str.isUpper b
  | _ => false
  end.

Definition isValidCountryCode (code : JsValue) : bool :=
  if negb (truthy code) || negb (typeof code =? "string") then false
  else
    match code with
    | JStr s =>
        if negb (Nat.eqb (String.length s) 2) || negb (alpha2_test s) then false
        else true
    | _ => false
    end.

Definition ipHeaders : list string :=
  [ "x-forwarded-for"; "x-real-ip"; "cf-connecting-ip"; "x-client-ip";
    "x-forwarded"; "forwarded-for"; "forwarded" ].

(** [Array.isArray(value) ? value[0] : value.split(',')[0].trim()]; a truthy
    value that is neither an array nor a string has no [split] method (an
    object is taken to have none). *)
Definition firstIP (value : JsValue) : Result JsValue :=
  match value with
  | JArr items => Return (nth 0 items JUndefined)
  | JStr s => Return (JStr (Str.trim (Str.beforeFirst "," s)))
  | _ => Throw (TypeError "value.split is not a function")
  end.

Fixpoint getClientIP_from (names : list string) (headers : JsObject)
  : Result JsValue :=
  match names with
  | [] => Return (JStr "unknown")
  | header :: rest =>
      let value :=
        if truthy (get headers header) then get headers header
        else get headers (Str.toLowerCase header) in
      if truthy value then
        ip <- firstIP value ;;
        if truthy ip then Return ip else getClientIP_from rest headers
      else getClientIP_from rest headers
  end.

Definition getClientIP (headers : JsObject) : Result JsValue :=
  getClientIP_from ipHeaders headers.

Definition vercelHeaders : list string :=
  [ "x-vercel-ip-country"; "X-Vercel-Ip-Country"; "X-VERCEL-IP-COUNTRY";
    "x-vercel-ipcountry"; "X-Vercel-IPCountry" ].

(** [String(value).toUpperCase().trim()] *)
Definition normalize (value : JsValue) : Result string :=
  s <- ToString value ;;
  Return (Str.trim (Str.toUpperCase s)).

(** The first loop of [detectCountry], over the names still to try;
    [country] is the variable of that name, left as it is when no header
    gives a valid code. *)
Fixpoint scanExact (names : list string) (headers : JsObject) (country : string)
  : Result string :=
  match names with
  | [] => Return country
  | header :: rest =>
      let value := get headers header in
      if truthy value then
        code <- normalize value ;;
        if isValidCountryCode (JStr code) then Return code
        else scanExact rest headers country
      else scanExact rest headers country
  end.

Definition fuzzyName (key : string) : bool :=
  let lowerKey := Str.toLowerCase key in
  Str.includes lowerKey "vercel" && Str.includes lowerKey "country".

(** The second loop, [for (const key in headers)], over the keys still to
    visit. *)
Fixpoint scanFuzzy (ks : list string) (headers : JsObject) (country : string)
  : Result string :=
  match ks with
  | [] => Return country
  | key :: rest =>
      if fuzzyName key then
        let value := get headers key in
        if truthy value then
          code <- normalize value ;;
          if isValidCountryCode (JStr code) then Return code
          else scanFuzzy rest headers country
        else scanFuzzy rest headers country
      else scanFuzzy rest headers country
  end.

Definition detectCountry (headers : JsObject) : Result string :=
  let country := "XX" in
  country <- scanExact vercelHeaders headers country ;;
  country <- (if country =? "XX" then scanFuzzy (keys headers) headers country
              else Return country) ;;
  if (country =? "XX") && truthy (get headers "cf-ipcountry") then
    code <- normalize (get headers "cf-ipcountry") ;;
    if isValidCountryCode (JStr code) then Return code else Return country
  else Return country.

(** ** The handler *)

Record Request : Type := {
  method : string;
  url : string;
  headers : JsObject;
  query : option JsObject   (* [None]: [req.query] is undefined *)
}.

(** The two readings of the clock that reach the response:
    [new Date().toISOString()] and the text of [Date.now() - startTime]. *)
Record Clock : Type := { isoNow : string; elapsed : string }.

Record DebugInfo : Type := {
  dbg_headers : JsObject;
  dbg_detected : string;
  dbg_clientIP : JsValue;
  dbg_processingTime : string
}.

Inductive Body : Type :=
| OkBody (country timestamp : string) (debug : option DebugInfo)
| ErrorBody (error country : string) (message : option string).

(** The response object [res]: what [setHeader], [status] and [json] have
    written to it so far. These three methods are taken not to throw. *)
Record Response : Type := {
  statusCode : nat;
  resHeaders : list (string * string);
  sent : option Body
}.

Definition freshResponse : Response :=
  {| statusCode := 200; resHeaders := []; sent := None |}.

Fixpoint putHeader (name value : string) (hs : list (string * string))
  : list (string * string) :=
  match hs with
  | [] => [(name, value)]
  | (n, v) :: rest =>
      if Str.toLowerCase n =? Str.toLowerCase name then (name, value) :: rest
      else (n, v) :: putHeader name value rest
  end.

(** A handler step: it updates [res] and may throw; what was written to
    [res] before a throw stays written. *)
Definition Step (A : Type) : Type := Response -> Response * Result A.

Definition ret {A : Type} (a : A) : Step A := fun res => (res, Return a).

Definition lift {A : Type} (c : Result A) : Step A := fun res => (res, c).

Definition andThen {A B : Type} (c : Step A) (k : A -> Step B) : Step B :=
  fun res =>
    match c res with
    | (res', Return a) => k a res'
    | (res', Throw e) => (res', Throw e)
    end.

Definition tryCatch {A : Type} (body : Step A) (handler : JsError -> Step A)
  : Step A :=
  fun res =>
    match body res with
    | (res', Return a) => (res', Return a)
    | (res', Throw e) => handler e res'
    end.

Notation "x <~ c ;; k" := (andThen c (fun x => k))
  (at level 61, c at next level, right associativity).
Notation "c ;;; k" := (andThen c (fun _ => k))
  (at level 61, right associativity).

Definition setHeader (name value : string) : Step unit :=
  fun res =>
    ({| statusCode := statusCode res;
        resHeaders := putHeader name value (resHeaders res);
        sent := sent res |}, Return tt).

(** [res.status(code).json(body)] *)
Definition statusJson (code : nat) (body : Body) : Step unit :=
  fun res =>
    ({| statusCode := code; resHeaders := resHeaders res; sent := Some body |},
     Return tt).

(** [req.query.debug]: reading a property of [undefined] throws. *)
Definition queryDebug (req : Request) : Result JsValue :=
  match query req with
  | Some q => Return (get q "debug")
  | None =>
      Throw (TypeError "Cannot read properties of undefined (reading 'debug')")
  end.

Definition isDebugMode (env : ProcessEnv) (req : Request) : Result bool :=
  if env_is env "development" then Return true
  else
    d <- queryDebug req ;;
    if strictEqStr d "true" then Return true
    else Return (strictEqStr (get (headers req) "x-debug") "true").

Definition debugHeader (k : string) : bool :=
  let lowerKey := Str.toLowerCase k in
  Str.includes lowerKey "vercel" || Str.includes lowerKey "country" ||
  Str.includes lowerKey "ip" || Str.includes lowerKey "forwarded".

Definition debugInfo (clock : Clock) (req : Request) (country : string)
    (clientIP : JsValue) : DebugInfo :=
  {| dbg_headers :=
       List.map (fun key => (key, get (headers req) key))
                (filter debugHeader (keys (headers req)));
     dbg_detected := country;
     dbg_clientIP := clientIP;
     dbg_processingTime := (elapsed clock ++ "ms")%string |}.

(** The [try] block of [handler]. *)
Definition tryBlock (env : ProcessEnv) (clock : Clock) (req : Request)
    (clientIP : JsValue) : Step unit :=
  country <~ lift (detectCountry (headers req)) ;;
  setHeader "Content-Type" "application/json" ;;;
  setHeader "Cache-Control" "no-cache, no-store, must-revalidate" ;;;
  setHeader "Pragma" "no-cache" ;;;
  setHeader "Expires" "0" ;;;
  setHeader "X-Content-Type-Options" "nosniff" ;;;
  dbg <~ lift (isDebugMode env req) ;;
  statusJson 200
    (OkBody country (isoNow clock)
       (if dbg : bool then Some (debugInfo clock req country clientIP) else None)).

(** The [catch (error)] block of [handler]. *)
Definition catchBlock (env : ProcessEnv) (error : JsError) : Step unit :=
  setHeader "Content-Type" "application/json" ;;;
  statusJson 500
    (ErrorBody "Internal server error" "XX"
       (Some (if env_is env "development" then err_message error
              else "An error occurred"))).

Definition handler (env : ProcessEnv) (clock : Clock) (req : Request)
  : Step unit :=
  clientIP <~ lift (getClientIP (headers req)) ;;
  if negb (method req =? "GET") && negb (method req =? "POST") then
    setHeader "Allow" "GET, POST" ;;;
    statusJson 405 (ErrorBody "Method not allowed" "XX" None)
  else
    tryCatch (tryBlock env clock req clientIP) (catchBlock env).

End GeoApi.

(* ================================================================== *)
(** * The platform's [URL] constructor

    [new URL(input)] without a base, after the URL Standard's basic URL
    parser, as far as the two members that [isValidUrl] reads, [protocol] and
    [hostname], depend on it. Outside this model, and reported as a
    [TypeError] here: IPv6 literals, and host names with code units above 127
    (which the Standard maps through IDNA). Labels in [xn--] form are taken as
    they are. *)

Module URL.

Record t : Type := { protocol : string; hostname : string }.

Definition invalid : JsError := TypeError "Invalid URL".

Definition isC0OrSpace (c : ascii) : bool := Nat.leb (Str.code c) 32.
Definition isTabOrNewline (c : ascii) : bool :=
  Nat.eqb (Str.code c) 9 || Nat.eqb (Str.code c) 10 || Nat.eqb (Str.code c) 13.

Fixpoint dropWhile (p : ascii -> bool) (s : string) : string :=
  match s with
  | String c r => if p c then dropWhile p r else s
  | EmptyString => EmptyString
  end.

Fixpoint dropWhileEnd (p : ascii -> bool) (s : string) : string :=
  match s with
  | EmptyString => EmptyString
  | String c r =>
      match dropWhileEnd p r with
      | EmptyString => if p c then EmptyString else String c EmptyString
      | r' => String c r'
      end
  end.

Fixpoint remove (p : ascii -> bool) (s : string) : string :=
  match s with
  | EmptyString => EmptyString
  | String c r => if p c then remove p r else String c (remove p r)
  end.

Fixpoint any (p : ascii -> bool) (s : string) : bool :=
  match s with
  | EmptyString => false
  | String c r => p c || any p r
  end.

Definition all (p : ascii -> bool) (s : string) : bool :=
  negb (any (fun c => negb (p c)) s).

Definition oneOf (chars : string) (c : ascii) : bool := any (Ascii.eqb c) chars.

(** The text up to the first code unit satisfying [p], and the rest from
    that code unit on. *)
Fixpoint break (p : ascii -> bool) (s : string) : string * string :=
  match s with
  | EmptyString => (EmptyString, EmptyString)
  | String c r =>
      if p c then (EmptyString, s)
      else let (a, b) := break p r in (String c a, b)
  end.

Fixpoint split (sep : ascii) (s : string) : list string :=
  match s with
  | EmptyString => [EmptyString]
  | String c r =>
      if Ascii.eqb c sep then EmptyString :: split sep r
      else
        match split sep r with
        | h :: t => String c h :: t
        | [] => [String c EmptyString]
        end
  end.

(** *** Scheme *)

Definition isSchemeChar (c : ascii) : bool :=
  Str.isAlpha c || Str.isDigit c || oneOf "+-." c.

Fixpoint schemeTail (s : string) : option (string * string) :=
  match s with
  | EmptyString => None
  | String c r =>
      if Ascii.eqb c ":" then Some (EmptyString, r)
      else if isSchemeChar c then
        match schemeTail r with
        | Some (scheme, rest) => Some (String (Str.lower c) scheme, rest)
        | None => None
        end
      else None
  end.

(** The lowercased scheme and what follows its [":"]; [None] when the input
    does not start with a scheme (there is no base URL to fall back on). *)
Definition splitScheme (s : string) : option (string * string) :=
  match s with
  | String c r =>
      if Str.isAlpha c then
        match schemeTail r with
        | Some (scheme, rest) => Some (String (Str.lower c) scheme, rest)
        | None => None
        end
      else None
  | EmptyString => None
  end.

Definition isSpecial (scheme : string) : bool :=
  existsb (String.eqb scheme) ["ftp"; "file"; "http"; "https"; "ws"; "wss"].

(** *** Numbers of an IPv4 address *)

Definition digitValue (c : ascii) : option N :=
  let n := N.of_nat (Str.code c) in
  if Str.isDigit c then Some (n - 48)%N
  else if Str.between 97 102 c then Some (n - 87)%N
  else if Str.between 65 70 c then Some (n - 55)%N
  else None.

Fixpoint parseRadix (radix : N) (acc : N) (s : string) : option N :=
  match s with
  | EmptyString => Some acc
  | String c r =>
      match digitValue c with
      | Some d => if (d <? radix)%N then parseRadix radix (acc * radix + d)%N r
                  else None
      | None => None
      end
  end.

(** The IPv4 number parser: decimal, [0x] hexadecimal or [0] octal. *)
Definition ipv4Number (part : string) : option N :=
  match part with
  | EmptyString => None
  | String "0" (String x r) =>
      if oneOf "xX" x then parseRadix 16 0 r
      else parseRadix 8 0 (String x r)
  | _ => parseRadix 10 0 part
  end.

(** The parts between the dots, without the empty part a final dot leaves. *)
Definition ipv4Parts (host : string) : list string :=
  let parts := split "." host in
  match rev parts with
  | EmptyString :: ((_ :: _) as front) => rev front
  | _ => parts
  end.

Definition endsInNumber (host : string) : bool :=
  match rev (split "." host) with
  | [EmptyString] => false
  | EmptyString :: last :: _ | last :: _ =>
      (negb (last =? "") && all Str.isDigit last) ||
      match ipv4Number last with Some _ => true | None => false end
  | [] => false
  end.

Fixpoint ipv4Numbers (parts : list string) : option (list N) :=
  match parts with
  | [] => Some []
  | p :: rest =>
      match ipv4Number p, ipv4Numbers rest with
      | Some n, Some ns => Some (n :: ns)
      | _, _ => None
      end
  end.

Definition serializeIPv4 (address : N) : string :=
  (Str.decimal (address / 16777216) ++ "." ++
   Str.decimal ((address / 65536) mod 256) ++ "." ++
   Str.decimal ((address / 256) mod 256) ++ "." ++
   Str.decimal (address mod 256))%string.

(** The IPv4 parser, on a host that ends in a number. *)
Definition parseIPv4 (host : string) : option string :=
  let parts := ipv4Parts host in
  if Nat.ltb 4 (List.length parts) then None
  else
    match ipv4Numbers parts with
    | None => None
    | Some numbers =>
        match rev numbers with
        | [] => None
        | last :: front =>
            if existsb (fun n => (255 <? n)%N) front then None
            else if (256 ^ (5 - N.of_nat (List.length numbers)) <=? last)%N then None
            else
              Some (serializeIPv4
                      (fold_left (fun ip n => (ip * 256 + n)%N) (rev front) 0
                       * 256 ^ (4 - N.of_nat (List.length front)) + last)%N)
        end
    end.

(** *** Host *)

Definition hexByte (a b : ascii) : option ascii :=
  match digitValue a, digitValue b with
  | Some x, Some y => Some (ascii_of_N (x * 16 + y))
  | _, _ => None
  end.

Fixpoint percentDecode (s : string) : string :=
  match s with
  | String "%" (String a (String b r) as rest) =>
      match hexByte a b with
      | Some c => String c (percentDecode r)
      | None => String "%" (percentDecode rest)
      end
  | String c r => String c (percentDecode r)
  | EmptyString => EmptyString
  end.

Definition forbiddenHostCodePoint (c : ascii) : bool :=
  Nat.eqb (Str.code c) 0 || isTabOrNewline c || oneOf " #/:<>?@[\]^|" c.

Definition forbiddenDomainCodePoint (c : ascii) : bool :=
  forbiddenHostCodePoint c || Nat.leb (Str.code c) 31 ||
  oneOf "%" c || Nat.eqb (Str.code c) 127.

Definition nonAscii (c : ascii) : bool := Nat.leb 128 (Str.code c).

(** The host parser for the host of a special scheme. *)
Definition parseHost (input : string) : Result string :=
  if Str.startsWith input "[" then Throw invalid
  else
    let domain := percentDecode input in
    if any nonAscii domain then Throw invalid
    else
      let asciiDomain := Str.toLowerCase domain in
      if (asciiDomain =? "") || any forbiddenDomainCodePoint asciiDomain
      then Throw invalid
      else if endsInNumber asciiDomain then
        match parseIPv4 asciiDomain with
        | Some address => Return address
        | None => Throw invalid
        end
      else Return asciiDomain.

(** The host parser for an opaque host (a scheme that is not special). *)
Definition parseOpaqueHost (input : string) : Result string :=
  if Str.startsWith input "[" then Throw invalid
  else if any forbiddenHostCodePoint input || any nonAscii input then Throw invalid
  else Return input.

(** *** Authority *)

(** What follows the last ["@"] of the authority, and whether there was one. *)
Definition afterCredentials (authority : string) : string * bool :=
  match rev (split "@" authority) with
  | [] => (authority, false)
  | [only] => (only, false)
  | last :: _ => (last, true)
  end.

Definition validPort (port : string) : bool :=
  all Str.isDigit port &&
  match parseRadix 10 0 port with
  | Some n => (n <=? 65535)%N
  | None => false
  end.

(** Authority, host and port states, for an authority already cut at its
    end; the host is parsed by [hostParser]. *)
Definition parseAuthority (special : bool) (hostParser : string -> Result string)
    (authority : string) : Result string :=
  let (hostport, atSignSeen) := afterCredentials authority in
  if atSignSeen && (hostport =? "") then Throw invalid
  else
    let (host, port) := break (Ascii.eqb ":") hostport in
    if (host =? "") && (special || negb (port =? "")) then Throw invalid
    else
      h <- (if host =? "" then Return "" else hostParser host) ;;
      match port with
      | String _ digits => if validPort digits then Return h else Throw invalid
      | EmptyString => Return h
      end.

Definition isSlash (c : ascii) : bool := oneOf "/\" c.

Definition isWindowsDriveLetter (s : string) : bool :=
  match s with
  | String a (String b EmptyString) => Str.isAlpha a && oneOf ":|" b
  | _ => false
  end.

(** The host of a [file:] URL. *)
Definition fileHost (rest : string) : Result string :=
  match rest with
  | String a (String b r) =>
      if isSlash a && isSlash b then
        let (buffer, _) := break (oneOf "/\?#") r in
        if isWindowsDriveLetter buffer || (buffer =? "") then Return ""
        else
          h <- parseHost buffer ;;
          Return (if h =? "localhost" then "" else h)
      else Return ""
  | _ => Return ""
  end.

(** [new URL(input)] *)
Definition construct (input : string) : Result t :=
  let input :=
    remove isTabOrNewline (dropWhileEnd isC0OrSpace (dropWhile isC0OrSpace input)) in
  match splitScheme input with
  | None => Throw invalid
  | Some (scheme, rest) =>
      host <-
        (if scheme =? "file" then fileHost rest
         else if isSpecial scheme then
           let (authority, _) := break (oneOf "/\?#") (dropWhile isSlash rest) in
           parseAuthority true parseHost authority
         else if Str.startsWith rest "//" then
           let (authority, _) := break (oneOf "/?#") (substring 2 (String.length rest) rest) in
           parseAuthority false parseOpaqueHost authority
         else Return "") ;;
      Return {| protocol := (scheme ++ ":")%string; hostname := host |}
  end.

End URL.

(* ================================================================== *)
(** * utils.js

    [Logger] writes to the console (and to an optional external service);
    its calls are left out. *)

Module Utils.

Section Validator.

(** [new URL(text)]: the parsed URL, or the exception thrown. *)
Variable newURL : string -> Result URL.t.

(** The blocklist of the production branch, on the lowercased host name. *)
Definition blockedHost (hostname : string) : bool :=
  (hostname =? "localhost") ||
  (hostname =? "127.0.0.1") ||
  Str.startsWith hostname "192.168." ||
  Str.startsWith hostname "10." ||
  Str.startsWith hostname "172.".

(** The body of the [try] block. *)
Definition checkUrl (env : ProcessEnv) (url : JsValue) : Result bool :=
  text <- ToString url ;;
  urlObj <- newURL text ;;
  if negb (existsb (String.eqb (URL.protocol urlObj)) ["http:"; "https:"])
  then Return false
  else if (URL.hostname urlObj =? "") ||
          Nat.eqb (String.length (URL.hostname urlObj)) 0
  then Return false
  else if env_is env "production" &&
          blockedHost (Str.toLowerCase (URL.hostname urlObj))
  then Return false
  else Return true.

Definition isValidUrlWith (env : ProcessEnv) (url : JsValue) : Result bool :=
  if negb (truthy url) || negb (typeof url =? "string") || strictEqStr url "#"
  then Return false
  else try_catch (checkUrl env url) (fun e => Return false).

End Validator.

(** [isValidUrl(url)], on the platform's [URL]. *)
Definition isValidUrl (env : ProcessEnv) (url : JsValue) : Result bool :=
  isValidUrlWith URL.construct env url.

(** ** Configuration *)

(** The data [response.json()] gives, and the object literals of
    [getDefaultConfig]. *)
#[warnings="-register-all"]
Inductive Json : Type :=
| JsonNull
| JsonBool (b : bool)
| JsonNumber (n : Z)
| JsonString (s : string)
| JsonArray (items : list Json)
| JsonObject (members : list (string * Json)).

(** [o.name]; [None] is [undefined]. *)
Definition member (o : Json) (name : string) : option Json :=
  match o with
  | JsonObject members =>
      (fix find (l : list (string * Json)) : option Json :=
         match l with
         | [] => None
         | (k, v) :: rest => if k =? name then Some v else find rest
         end) members
  | _ => None
  end.

Definition memberNames (o : Json) : list string :=
  match o with
  | JsonObject members => List.map fst members
  | _ => []
  end.

Definition getDefaultConfig : Json :=
  JsonObject
    [ ("redirects", JsonObject [ ("DEFAULT", JsonString "https://t.co/y5IrJWOLzN") ]);
      ("counter",
        JsonObject
          [ ("key", JsonString "norieldev");
            ("titles", JsonObject [ ("DEFAULT", JsonString "NORIEL DEV NULL") ]) ]);
      ("flags", JsonObject [ ("DEFAULT", JsonString "https://flagcdn.com/w320/un.png") ]);
      ("settings",
        JsonObject
          [ ("instantRedirectMode", JsonBool false);
            ("minWaitTime", JsonNumber 1500);
            ("maxWaitTime", JsonNumber 3000);
            ("enableLogging", JsonBool true);
            ("enableVPNDetection", JsonBool true);
            ("vpnDetectionThreshold", JsonNumber 60) ]);
      ("adScripts", JsonArray []);
      ("adultDomains", JsonArray []);
      ("allowedUrlParams",
        JsonArray [ JsonString "id"; JsonString "page"; JsonString "view" ]) ].

(** The [Response] of [fetch]: [ok], [status] and the outcome of [json()]. *)
Record FetchResponse : Type := {
  ok : bool;
  status : N;
  json : Result Json
}.

(** The [try] block of [loadConfig]. *)
Definition fetchConfig (fetch : string -> Result FetchResponse)
    (configPath : string) : Result Json :=
  response <- fetch configPath ;;
  if negb (ok response) then
    Throw (mkError "Error"
             ("HTTP error! status: " ++ Str.decimal (status response))%string)
  else
    config <- json response ;;
    Return config.

(** [loadConfig(configPath = '/config.json')]. The function is [async]:
    [Return] is the value its promise resolves to, [Throw] a rejection; so
    for [fetch] and [json()], whose promises are awaited. *)
Definition loadConfig (fetch : string -> Result FetchResponse)
    (configPath : option string) : Result Json :=
  let configPath :=
    match configPath with Some p => p | None => "/config.json" end in
  try_catch (fetchConfig fetch configPath)
            (fun error => Return getDefaultConfig).

End Utils.

(* ================================================================== *)
(** * Vocabulary of the properties *)

(** [c] passes the validation of every stage. *)
Definition validCode (c : string) : Prop :=
  GeoApi.isValidCountryCode (JStr c) = true.

(** Header [name] is present in [h] with a value that normalizes to the valid
    code [c]. *)
Definition carries (h : JsObject) (name c : string) : Prop :=
  truthy (get h name) = true /\
  GeoApi.normalize (get h name) = Return c /\
  validCode c.

(** Header [name] gives nothing: it is absent (or falsy), or its value
    normalizes to a text that fails the validation. *)
Definition skipped (h : JsObject) (name : string) : Prop :=
  truthy (get h name) = false \/
  exists s, GeoApi.normalize (get h name) = Return s /\
            GeoApi.isValidCountryCode (JStr s) = false.

(** Stage 1 finds no valid code. *)
Definition noExactMatch (h : JsObject) : Prop :=
  Forall (skipped h) GeoApi.vercelHeaders.

(** Key [k] gives nothing in the scan of stage 2. *)
Definition skippedFuzzy (h : JsObject) (k : string) : Prop :=
  GeoApi.fuzzyName k = false \/ skipped h k.

(** Stage 2 finds no valid code. *)
Definition noFuzzyMatch (h : JsObject) : Prop :=
  Forall (skippedFuzzy h) (keys h).

(** [String(v)] returns. *)
Definition converts (v : JsValue) : Prop := exists s, ToString v = Return s.

(** A header value as the transport gives it: a string, or an array of
    strings. *)
Definition isHeaderValue (v : JsValue) : bool :=
  match v with
  | JStr _ => true
  | JArr items =>
      forallb (fun x => match x with JStr _ => true | _ => false end) items
  | _ => false
  end.

(** [h'] has the same values as [h] under the given names. *)
Definition agreeOn (names : list string) (h h' : JsObject) : Prop :=
  forall n, In n names -> get h' n = get h n.

(** The private and loopback hosts as the specification lists them: the
    host name is [localhost] or [127.0.0.1], or starts with [192.168.],
    [10.] or [172.]. *)
Definition listedHost (host : string) : Prop :=
  host = "localhost" \/ host = "127.0.0.1" \/
  Str.startsWith host "192.168." = true \/
  Str.startsWith host "10." = true \/
  Str.startsWith host "172." = true.

(** [new URL(input).hostname], when [new URL(input)] returns. *)
Definition hostnameOf (input : string) : option string :=
  match URL.construct input with
  | Return u => Some (URL.hostname u)
  | Throw _ => None
  end.

(** The production mode of [isValidUrl]. *)
Definition production (env : ProcessEnv) : bool := env_is env "production".

(** The development mode of [handler]. *)
Definition development (env : ProcessEnv) : bool := env_is env "development".

(** [getDefaultConfig().settings[name]] *)
Definition defaultSetting (name : string) : option Utils.Json :=
  match Utils.member Utils.getDefaultConfig "settings" with
  | Some settings => Utils.member settings name
  | None => None
  end.

(** [Object.keys(getDefaultConfig().redirects)] *)
Definition defaultRedirects : list string :=
  match Utils.member Utils.getDefaultConfig "redirects" with
  | Some redirects => Utils.memberNames redirects
  | None => []
  end.

(** Header [name] gives no client address: it is absent (or falsy), or the
    first item of its value is falsy (the text before the first comma of a
    string is blank, the first element of an array is falsy or missing). *)
Definition noIP (h : JsObject) (name : string) : Prop :=
  truthy (get h name) = false \/
  exists ip, GeoApi.firstIP (get h name) = Return ip /\ truthy ip = false.

(** Header [name] gives the client address [ip]. *)
Definition givesIP (h : JsObject) (name : string) (ip : JsValue) : Prop :=
  truthy (get h name) = true /\
  GeoApi.firstIP (get h name) = Return ip /\
  truthy ip = true.

(** Every value of the map is a string or an array of strings. *)
Definition transportHeaders (h : JsObject) : Prop :=
  Forall (fun kv => isHeaderValue (snd kv) = true) h.

(** Every value of the map is a string. *)
Definition stringHeaders (h : JsObject) : Prop :=
  Forall (fun kv => exists s, snd kv = JStr s) h.

(** The text is empty or starts with a code unit that is no
    white space: what [trimStart] leaves, and [trimEnd] keeps. *)
Definition startsClean (s : string) : Prop :=
  match s with
  | EmptyString => True
  | String c _ => Str.isWhiteSpace c = false
  end.

(** The properties of an address cut from a string header. *)
Definition cleanAddress (s : string) : Prop :=
  s <> "" /\ Str.includes s "," = false /\ Str.trim s = s.

(** Every code unit of the text is white space (the empty text
    included). *)
Fixpoint isBlank (s : string) : bool :=
  match s with
  | EmptyString => true
  | String c r => Str.isWhiteSpace c && isBlank r
  end.

(** ** Sample header maps *)

Module Sample.

Definition xx_then_cloudflare : JsObject :=
  [ ("x-vercel-ip-country", JStr "xx"); ("cf-ipcountry", JStr "FR") ].

Definition second_casing : JsObject :=
  [ ("host", JStr "example.com");
    ("X-Vercel-Ip-Country", JStr " us ");
    ("cf-ipcountry", JStr "FR") ].

Definition xx_variant_then_cloudflare : JsObject :=
  [ ("X-Vercel-IPCountry", JStr "XX"); ("cf-ipcountry", JStr "DE") ].

Definition vercel_and_cloudflare : JsObject :=
  [ ("cf-ipcountry", JStr "FR"); ("x-vercel-ipcountry", JArr [JStr "ca"]) ].

Definition cloudflare_mixed_case : JsObject :=
  [ ("CF-IPCountry", JStr "FR") ].

Definition cloudflare_only : JsObject :=
  [ ("accept", JStr "*/*"); ("cf-ipcountry", JStr "fr") ].

Definition fuzzy_xx_then_cloudflare : JsObject :=
  [ ("x-custom-vercel-country-code", JStr "xx"); ("cf-ipcountry", JStr "FR") ].

Definition fuzzy_candidates : JsObject :=
  [ ("accept", JStr "*/*");
    ("x-vercel-country-hint", JStr "en-US");
    ("x-custom-vercel-country-code", JStr "de");
    ("z-vercel-country", JStr "us");
    ("cf-ipcountry", JStr "FR") ].

(** An object whose conversion to a string throws, as [Object.create(null)]. *)
Definition unprintable : JsValue :=
  JObj (Throw (TypeError "Cannot convert object to primitive value")).

Definition unprintable_country : JsObject :=
  [ ("x-vercel-ip-country", unprintable) ].

Definition transport_headers : JsObject :=
  [ ("set-cookie", JArr [JStr "a=1"; JStr "b=2"]);
    ("x-vercel-ip-country", JStr "usa");
    ("my-vercel-country", JArr [JStr "n"; JStr "l"]);
    ("cf-ipcountry", JArr [JStr " nl"]) ].

(** ** Sample requests and environments *)

Definition production_env : ProcessEnv := {| NODE_ENV := Some "production" |}.
Definition development_env : ProcessEnv := {| NODE_ENV := Some "development" |}.

Definition noon : GeoApi.Clock :=
  {| GeoApi.isoNow := "2024-05-01T12:00:00.000Z"; GeoApi.elapsed := "2" |}.

(** A request on a host that gives no [req.query]. *)
Definition without_query : GeoApi.Request :=
  {| GeoApi.method := "GET";
     GeoApi.url := "/api/geo";
     GeoApi.headers := [ ("x-vercel-ip-country", JStr "us") ];
     GeoApi.query := None |}.

End Sample.

Module Demo.

Definition forwarded_chain : JsObject :=
  [ ("x-real-ip", JStr "198.51.100.2");
    ("x-forwarded-for", JStr " 203.0.113.7 , 10.0.0.1") ].

Definition blank_first_hop : JsObject :=
  [ ("x-forwarded-for", JStr " , 203.0.113.7");
    ("x-real-ip", JArr [JStr "198.51.100.2, 10.0.0.1"]) ].

Definition no_address : JsObject :=
  [ ("x-forwarded-for", JStr ",203.0.113.7");
    ("forwarded", JArr []);
    ("user-agent", JStr "curl/8.0") ].

(** A request with the method in lowercase. *)
Definition lowercase_get : GeoApi.Request :=
  {| GeoApi.method := "get";
     GeoApi.url := "/api/geo";
     GeoApi.headers := [ ("x-vercel-ip-country", JStr "us") ];
     GeoApi.query := None |}.

(** A request that asks for the debug payload. *)
Definition debug_post : GeoApi.Request :=
  {| GeoApi.method := "POST";
     GeoApi.url := "/api/geo?debug=true";
     GeoApi.headers :=
       [ ("authorization", JStr "Bearer secret");
         ("x-vercel-ip-country", JStr "pt");
         ("x-forwarded-for", JStr "203.0.113.7, 10.0.0.1");
         ("cookie", JStr "session=1") ];
     GeoApi.query := Some [ ("debug", JStr "true") ] |}.

End Demo.

(** Closes [skipped], [skippedFuzzy] and [carries] goals on a concrete map. *)
Ltac decide_header :=
  lazymatch goal with
  | |- skipped _ _ =>
      first [ left; reflexivity
            | right; eexists; split; reflexivity ]
  | |- skippedFuzzy _ _ =>
      first [ left; reflexivity
            | right; left; reflexivity
            | right; right; eexists; split; reflexivity ]
  | |- carries _ _ _ => repeat split; reflexivity
  | |- Forall _ _ => repeat (constructor; [decide_header |]); constructor
  | |- noExactMatch _ => unfold noExactMatch; decide_header
  | |- noFuzzyMatch _ => unfold noFuzzyMatch; cbn [keys keys_from]; decide_header
  end.

(* ================================================================== *)
(** * Country detection: the three stages *)

Lemma validCode_alpha2 (c : string) :
  validCode c <-> GeoApi.alpha2_test c = true.
Proof.
  unfold validCode, GeoApi.isValidCountryCode, GeoApi.alpha2_test.
  destruct c as [|a [|b [|x r]]]; simpl; try (split; discriminate).
  destruct (Str.isUpper a && Str.isUpper b); simpl; tauto.
Qed.

Lemma XX_valid : validCode "XX".
Proof. reflexivity. Qed.

Section Stages.

Variable h : JsObject.

(** One turn of either loop on a header that gives nothing. *)
Lemma skipped_step (name : string) (k : Result string) :
  skipped h name ->
  (if truthy (get h name)
   then code <- GeoApi.normalize (get h name) ;;
        if GeoApi.isValidCountryCode (JStr code) then Return code else k
   else k) = k.
Proof.
  intros [Hf | (s & Hn & Hv)].
  - now rewrite Hf.
  - destruct (truthy (get h name)); [| reflexivity].
    rewrite Hn. simpl. now rewrite Hv.
Qed.

(** One turn of either loop on a header that carries a valid code. *)
Lemma carries_step (name c : string) (k : Result string) :
  carries h name c ->
  (if truthy (get h name)
   then code <- GeoApi.normalize (get h name) ;;
        if GeoApi.isValidCountryCode (JStr code) then Return code else k
   else k) = Return c.
Proof.
  intros (Ht & Hn & Hv). rewrite Ht, Hn. simpl.
  unfold validCode in Hv. now rewrite Hv.
Qed.

Lemma scanExact_none (names : list string) (country : string) :
  Forall (skipped h) names ->
  GeoApi.scanExact names h country = Return country.
Proof.
  induction 1 as [| name rest Hs _ IH]; simpl; [reflexivity |].
  rewrite skipped_step by assumption. exact IH.
Qed.

Lemma scanExact_first (before after : list string) (name c country : string) :
  Forall (skipped h) before ->
  carries h name c ->
  GeoApi.scanExact (before ++ name :: after) h country = Return c.
Proof.
  intros Hb Hc. induction Hb as [| b rest Hs _ IH]; simpl.
  - now apply carries_step.
  - rewrite skipped_step by assumption. exact IH.
Qed.

Lemma scanFuzzy_none (ks : list string) (country : string) :
  Forall (skippedFuzzy h) ks ->
  GeoApi.scanFuzzy ks h country = Return country.
Proof.
  induction 1 as [| k rest Hs _ IH]; simpl; [reflexivity |].
  destruct Hs as [Hn | Hs].
  - now rewrite Hn.
  - destruct (GeoApi.fuzzyName k); [| exact IH].
    rewrite skipped_step by assumption. exact IH.
Qed.

Lemma scanFuzzy_first (before after : list string) (key c country : string) :
  Forall (skippedFuzzy h) before ->
  GeoApi.fuzzyName key = true ->
  carries h key c ->
  GeoApi.scanFuzzy (before ++ key :: after) h country = Return c.
Proof.
  intros Hb Hk Hc. induction Hb as [| b rest Hs _ IH]; simpl.
  - rewrite Hk. now apply carries_step.
  - destruct Hs as [Hn | Hs].
    + now rewrite Hn.
    + destruct (GeoApi.fuzzyName b); [| exact IH].
      rewrite skipped_step by assumption. exact IH.
Qed.

(** A code other than ["XX"] found by stage 1 is the result. *)
Lemma detectCountry_stage1 (c : string) :
  GeoApi.scanExact GeoApi.vercelHeaders h "XX" = Return c ->
  c <> "XX" ->
  GeoApi.detectCountry h = Return c.
Proof.
  intros H1 Hc. apply String.eqb_neq in Hc.
  unfold GeoApi.detectCountry. rewrite H1. cbn [bind].
  rewrite Hc. cbn [bind]. rewrite Hc. reflexivity.
Qed.

(** A code other than ["XX"] found by stage 2 is the result. *)
Lemma detectCountry_stage2 (c : string) :
  GeoApi.scanExact GeoApi.vercelHeaders h "XX" = Return "XX" ->
  GeoApi.scanFuzzy (keys h) h "XX" = Return c ->
  c <> "XX" ->
  GeoApi.detectCountry h = Return c.
Proof.
  intros H1 H2 Hc. apply String.eqb_neq in Hc.
  unfold GeoApi.detectCountry. rewrite H1. cbn [bind]. rewrite String.eqb_refl, H2.
  cbn [bind]. rewrite Hc. reflexivity.
Qed.

(** With ["XX"] after stages 1 and 2, stage 3 decides. *)
Lemma detectCountry_stage3 :
  GeoApi.scanExact GeoApi.vercelHeaders h "XX" = Return "XX" ->
  GeoApi.scanFuzzy (keys h) h "XX" = Return "XX" ->
  GeoApi.detectCountry h =
    (if truthy (get h "cf-ipcountry")
     then code <- GeoApi.normalize (get h "cf-ipcountry") ;;
          if GeoApi.isValidCountryCode (JStr code) then Return code
          else Return "XX"
     else Return "XX").
Proof.
  intros H1 H2. unfold GeoApi.detectCountry. rewrite H1. cbn [bind].
  rewrite String.eqb_refl, H2. cbn [bind]. rewrite String.eqb_refl. reflexivity.
Qed.

End Stages.

Lemma scanExact_agree (names : list string) (h h' : JsObject) (country : string) :
  agreeOn names h h' ->
  GeoApi.scanExact names h' country = GeoApi.scanExact names h country.
Proof.
  induction names as [| name rest IH]; intros Ha; simpl; [reflexivity |].
  rewrite (Ha name (or_introl eq_refl)).
  rewrite IH by (intros n Hn; apply Ha; now right).
  reflexivity.
Qed.

(* ------------------------------------------------------------------ *)
(** ** Stage 1 *)

(** C1, as stated, fails. With [x-vercel-ip-country: "xx"] and
    [cf-ipcountry: "FR"] the first exact header carries the valid code
    ["XX"], yet [detectCountry] returns ["FR"]: a detected ["XX"] is the
    value the variable [country] starts with, so stages 2 and 3 still run. *)
Lemma exact_xx_gives_way_to_cloudflare :
  carries Sample.xx_then_cloudflare "x-vercel-ip-country" "XX" /\
  GeoApi.detectCountry Sample.xx_then_cloudflare = Return "FR" /\
  GeoApi.detectCountry Sample.xx_then_cloudflare <> Return "XX".
Proof.
  split; [decide_header |]. split; [reflexivity | discriminate].
Qed.

(** C1, amended. Let [name] be the first of the five exact header names, in
    their fixed order, whose value normalizes to a valid code [c] (the names
    before it give nothing), and let [c] differ from ["XX"]. Then
    [detectCountry] returns [c], and it does so on every header map that has
    the same values under the five exact names: no other header, so neither
    stage 2 nor stage 3, has a say. *)
Theorem exact_header_returns_immediately
    (h : JsObject) (before after : list string) (name c : string) :
  GeoApi.vercelHeaders = before ++ name :: after ->
  Forall (skipped h) before ->
  carries h name c ->
  c <> "XX" ->
  GeoApi.detectCountry h = Return c /\
  forall h', agreeOn GeoApi.vercelHeaders h h' ->
             GeoApi.detectCountry h' = Return c.
Proof.
  intros Hnames Hbefore Hname Hc.
  assert (H1 : GeoApi.scanExact GeoApi.vercelHeaders h "XX" = Return c)
    by (rewrite Hnames; now apply scanExact_first).
  split.
  - now apply detectCountry_stage1.
  - intros h' Hagree. apply detectCountry_stage1; [| assumption].
    now rewrite (scanExact_agree _ h h').
Qed.

Lemma exact_header_returns_immediately_witness :
  carries Sample.second_casing "X-Vercel-Ip-Country" "US" /\
  GeoApi.detectCountry Sample.second_casing = Return "US" /\
  forall h', agreeOn GeoApi.vercelHeaders Sample.second_casing h' ->
             GeoApi.detectCountry h' = Return "US".
Proof.
  split; [decide_header |].
  apply (exact_header_returns_immediately Sample.second_casing
           ["x-vercel-ip-country"]
           ["X-VERCEL-IP-COUNTRY"; "x-vercel-ipcountry"; "X-Vercel-IPCountry"]
           "X-Vercel-Ip-Country" "US").
  - reflexivity.
  - decide_header.
  - decide_header.
  - discriminate.
Defined.

(** C5, as stated, fails. [X-Vercel-IPCountry: "XX"] and
    [cf-ipcountry: "DE"] carry valid and different codes, and the result is
    the Cloudflare one. *)
Lemma cloudflare_beats_exact_xx :
  carries Sample.xx_variant_then_cloudflare "X-Vercel-IPCountry" "XX" /\
  carries Sample.xx_variant_then_cloudflare "cf-ipcountry" "DE" /\
  GeoApi.detectCountry Sample.xx_variant_then_cloudflare = Return "DE".
Proof.
  split; [decide_header |]. split; [decide_header | reflexivity].
Qed.

(** C5, amended. When the first exact header that carries a valid code
    carries [c], [c] is not ["XX"], and [cf-ipcountry] carries a different
    valid code [c'], [detectCountry] returns [c] and not [c']. *)
Theorem exact_header_beats_cloudflare
    (h : JsObject) (before after : list string) (name c c' : string) :
  GeoApi.vercelHeaders = before ++ name :: after ->
  Forall (skipped h) before ->
  carries h name c ->
  carries h "cf-ipcountry" c' ->
  c <> c' ->
  c <> "XX" ->
  GeoApi.detectCountry h = Return c /\ GeoApi.detectCountry h <> Return c'.
Proof.
  intros Hnames Hbefore Hname _ Hdiff Hc.
  assert (H : GeoApi.detectCountry h = Return c).
  { apply detectCountry_stage1; [| assumption].
    rewrite Hnames. now apply scanExact_first. }
  split; [exact H |].
  rewrite H. intros E. injection E as E. contradiction.
Qed.

Lemma exact_header_beats_cloudflare_witness :
  carries Sample.vercel_and_cloudflare "x-vercel-ipcountry" "CA" /\
  carries Sample.vercel_and_cloudflare "cf-ipcountry" "FR" /\
  GeoApi.detectCountry Sample.vercel_and_cloudflare = Return "CA" /\
  GeoApi.detectCountry Sample.vercel_and_cloudflare <> Return "FR".
Proof.
  split; [decide_header |]. split; [decide_header |].
  apply (exact_header_beats_cloudflare Sample.vercel_and_cloudflare
           ["x-vercel-ip-country"; "X-Vercel-Ip-Country"; "X-VERCEL-IP-COUNTRY"]
           ["X-Vercel-IPCountry"] "x-vercel-ipcountry" "CA" "FR").
  - reflexivity.
  - decide_header.
  - decide_header.
  - decide_header.
  - discriminate.
  - discriminate.
Defined.

(* ------------------------------------------------------------------ *)
(** ** Stage 2 *)

(** C7, as stated, fails. Stage 1 finds nothing, the only header with
    [vercel] and [country] in its name carries the valid code ["XX"], and
    the result is the Cloudflare code. *)
Lemma fuzzy_xx_gives_way_to_cloudflare :
  noExactMatch Sample.fuzzy_xx_then_cloudflare /\
  GeoApi.fuzzyName "x-custom-vercel-country-code" = true /\
  carries Sample.fuzzy_xx_then_cloudflare "x-custom-vercel-country-code" "XX" /\
  GeoApi.detectCountry Sample.fuzzy_xx_then_cloudflare = Return "FR".
Proof.
  split; [decide_header |]. split; [reflexivity |].
  split; [decide_header | reflexivity].
Qed.

(** C7, amended. When stage 1 finds nothing and [key] is the first key, in
    the iteration order of the map, whose lowercase name contains [vercel]
    and [country] and whose value normalizes to a valid code [c] (the keys
    before it give nothing), and [c] is not ["XX"], [detectCountry] returns
    [c]. *)
Theorem fuzzy_scan_fallback
    (h : JsObject) (before after : list string) (key c : string) :
  noExactMatch h ->
  keys h = before ++ key :: after ->
  Forall (skippedFuzzy h) before ->
  GeoApi.fuzzyName key = true ->
  carries h key c ->
  c <> "XX" ->
  GeoApi.detectCountry h = Return c.
Proof.
  intros H1 Hkeys Hbefore Hfuzzy Hkey Hc.
  apply detectCountry_stage2; [| | assumption].
  - now apply scanExact_none.
  - rewrite Hkeys. now apply scanFuzzy_first.
Qed.

Lemma fuzzy_scan_fallback_witness :
  noExactMatch Sample.fuzzy_candidates /\
  carries Sample.fuzzy_candidates "x-custom-vercel-country-code" "DE" /\
  carries Sample.fuzzy_candidates "z-vercel-country" "US" /\
  GeoApi.detectCountry Sample.fuzzy_candidates = Return "DE".
Proof.
  split; [decide_header |]. split; [decide_header |]. split; [decide_header |].
  apply (fuzzy_scan_fallback Sample.fuzzy_candidates
           ["accept"; "x-vercel-country-hint"]
           ["z-vercel-country"; "cf-ipcountry"]
           "x-custom-vercel-country-code" "DE").
  - decide_header.
  - reflexivity.
  - decide_header.
  - reflexivity.
  - decide_header.
  - discriminate.
Defined.

(* ------------------------------------------------------------------ *)
(** ** Stage 3 *)

(** C6, as stated, fails. Under the key [CF-IPCountry], whose lowercase is
    [cf-ipcountry], a valid code is not found: stage 3 reads the property
    [cf-ipcountry] and nothing else. *)
Lemma cloudflare_other_casing_ignored :
  noExactMatch Sample.cloudflare_mixed_case /\
  noFuzzyMatch Sample.cloudflare_mixed_case /\
  Str.toLowerCase "CF-IPCountry" = "cf-ipcountry" /\
  carries Sample.cloudflare_mixed_case "CF-IPCountry" "FR" /\
  GeoApi.detectCountry Sample.cloudflare_mixed_case = Return "XX".
Proof.
  split; [decide_header |]. split; [decide_header |]. split; [reflexivity |].
  split; [decide_header | reflexivity].
Qed.

(** C6, amended. When stages 1 and 2 find nothing, a valid code under the
    key [cf-ipcountry], spelled so, is the result; when the map has no truthy
    value under that very key the result is the sentinel, whatever it holds
    under other spellings of the name. *)
Theorem cloudflare_header_exact_name (h : JsObject) :
  noExactMatch h ->
  noFuzzyMatch h ->
  (forall c, carries h "cf-ipcountry" c -> GeoApi.detectCountry h = Return c) /\
  (truthy (get h "cf-ipcountry") = false -> GeoApi.detectCountry h = Return "XX").
Proof.
  intros H1 H2.
  assert (E : GeoApi.detectCountry h =
              (if truthy (get h "cf-ipcountry")
               then code <- GeoApi.normalize (get h "cf-ipcountry") ;;
                    if GeoApi.isValidCountryCode (JStr code) then Return code
                    else Return "XX"
               else Return "XX")).
  { apply detectCountry_stage3.
    - now apply scanExact_none.
    - now apply scanFuzzy_none. }
  split.
  - intros c Hc. rewrite E. now apply carries_step.
  - intros Hf. rewrite E, Hf. reflexivity.
Qed.

Lemma cloudflare_header_exact_name_witness :
  noExactMatch Sample.cloudflare_only /\
  noFuzzyMatch Sample.cloudflare_only /\
  carries Sample.cloudflare_only "cf-ipcountry" "FR" /\
  GeoApi.detectCountry Sample.cloudflare_only = Return "FR" /\
  GeoApi.detectCountry Sample.cloudflare_mixed_case = Return "XX".
Proof.
  split; [decide_header |]. split; [decide_header |]. split; [decide_header |].
  split.
  - apply (cloudflare_header_exact_name Sample.cloudflare_only);
      decide_header.
  - apply (cloudflare_header_exact_name Sample.cloudflare_mixed_case);
      [decide_header | decide_header | reflexivity].
Defined.

(* ------------------------------------------------------------------ *)
(** ** The result of [detectCountry] *)

Lemma get_converts (h : JsObject) (name : string) :
  Forall (fun kv => converts (snd kv)) h -> converts (get h name).
Proof.
  induction 1 as [| [k v] rest Hv _ IH]; simpl.
  - now exists "undefined".
  - destruct (k =? name); assumption.
Qed.

Lemma normalize_converts (v : JsValue) :
  converts v -> exists s, GeoApi.normalize v = Return s.
Proof.
  intros [s Hs]. unfold GeoApi.normalize. rewrite Hs. simpl. eauto.
Qed.

(** A string, and an array of strings, convert. *)
Lemma headerValue_converts (v : JsValue) :
  isHeaderValue v = true -> converts v.
Proof.
  destruct v as [| | b | z t | s | items | conv]; simpl; try discriminate.
  - intros _. now exists s.
  - intros Hitems. unfold converts. simpl.
    induction items as [| x rest IH]; [now exists "" |].
    simpl in Hitems. apply andb_prop in Hitems as [Hx Hrest].
    destruct x; try discriminate. simpl.
    destruct rest as [| y rest']; [eauto |].
    destruct (IH Hrest) as [sr Hsr]. rewrite Hsr. simpl. eauto.
Qed.

(** One turn of either loop, on a value that converts, leaves a code that
    the validation accepts, provided the rest of the loop does. *)
Lemma step_valid (h : JsObject) (name : string) (k : Result string) :
  converts (get h name) ->
  (exists c, k = Return c /\ validCode c) ->
  exists c,
    (if truthy (get h name)
     then code <- GeoApi.normalize (get h name) ;;
          if GeoApi.isValidCountryCode (JStr code) then Return code else k
     else k) = Return c /\ validCode c.
Proof.
  intros Hv Hk. destruct (truthy (get h name)); [| exact Hk].
  destruct (normalize_converts _ Hv) as [s Hs]. rewrite Hs. simpl.
  destruct (GeoApi.isValidCountryCode (JStr s)) eqn:Hs'; [| exact Hk].
  now exists s.
Qed.

Lemma scanExact_valid (h : JsObject) (names : list string) (country : string) :
  Forall (fun kv => converts (snd kv)) h ->
  validCode country ->
  exists c, GeoApi.scanExact names h country = Return c /\ validCode c.
Proof.
  intros Hh Hc. induction names as [| name rest IH]; simpl; [eauto |].
  apply step_valid; [now apply get_converts | exact IH].
Qed.

Lemma scanFuzzy_valid (h : JsObject) (ks : list string) (country : string) :
  Forall (fun kv => converts (snd kv)) h ->
  validCode country ->
  exists c, GeoApi.scanFuzzy ks h country = Return c /\ validCode c.
Proof.
  intros Hh Hc. induction ks as [| k rest IH]; simpl; [eauto |].
  destruct (GeoApi.fuzzyName k); [| exact IH].
  apply step_valid; [now apply get_converts | exact IH].
Qed.

(** C2, as stated, fails. A value whose conversion to a string throws, under
    a name that [detectCountry] reads, makes [detectCountry] throw: nothing
    in it catches the exception of [String(value)]. *)
Lemma detectCountry_throws_on_unprintable :
  truthy Sample.unprintable = true /\
  GeoApi.detectCountry Sample.unprintable_country =
    Throw (TypeError "Cannot convert object to primitive value").
Proof. split; reflexivity. Qed.

(** C2, amended. On every header map whose values convert to a string
    (every string and every array of strings does, [headerValue_converts]),
    [detectCountry] returns, and what it returns has two letters [A-Z]; it is
    ["XX"] when none of the three stages finds a valid code. *)
Theorem detectCountry_returns_code (h : JsObject) :
  Forall (fun kv => converts (snd kv)) h ->
  exists c,
    GeoApi.detectCountry h = Return c /\
    GeoApi.alpha2_test c = true /\
    (noExactMatch h -> noFuzzyMatch h -> skipped h "cf-ipcountry" -> c = "XX").
Proof.
  intros Hh.
  assert (Hret : exists c, GeoApi.detectCountry h = Return c /\ validCode c).
  { unfold GeoApi.detectCountry.
    destruct (scanExact_valid h GeoApi.vercelHeaders "XX" Hh XX_valid)
      as (c1 & E1 & V1).
    rewrite E1. cbn [bind].
    assert (H2 : exists c2,
               (if c1 =? "XX" then GeoApi.scanFuzzy (keys h) h c1 else Return c1)
               = Return c2 /\ validCode c2).
    { destruct (c1 =? "XX"); [now apply scanFuzzy_valid | eauto]. }
    destruct H2 as (c2 & E2 & V2). rewrite E2. cbn [bind].
    destruct ((c2 =? "XX") && truthy (get h "cf-ipcountry")); [| eauto].
    destruct (normalize_converts _ (get_converts h "cf-ipcountry" Hh))
      as [s Hs].
    rewrite Hs. cbn [bind].
    destruct (GeoApi.isValidCountryCode (JStr s)) eqn:Vs; eauto. }
  destruct Hret as (c & E & V). exists c.
  split; [exact E |]. split; [now apply validCode_alpha2 |].
  intros H1 H2 H3.
  rewrite detectCountry_stage3 in E
    by (first [now apply scanExact_none | now apply scanFuzzy_none]).
  rewrite (skipped_step h "cf-ipcountry" (Return "XX") H3) in E.
  now injection E.
Qed.

Lemma detectCountry_returns_code_witness :
  Forall (fun kv => isHeaderValue (snd kv) = true) Sample.transport_headers /\
  (exists c,
     GeoApi.detectCountry Sample.transport_headers = Return c /\
     GeoApi.alpha2_test c = true /\ c = "NL") /\
  (exists c,
     GeoApi.detectCountry Sample.cloudflare_mixed_case = Return c /\
     GeoApi.alpha2_test c = true /\ c = "XX").
Proof.
  split; [repeat constructor |]. split.
  - destruct (detectCountry_returns_code Sample.transport_headers)
      as (c & E & A & _).
    + repeat (constructor; [apply headerValue_converts; reflexivity |]).
      constructor.
    + exists c. split; [exact E |]. split; [exact A |].
      now injection E.
  - destruct (detectCountry_returns_code Sample.cloudflare_mixed_case)
      as (c & E & A & X).
    + repeat (constructor; [apply headerValue_converts; reflexivity |]).
      constructor.
    + exists c. split; [exact E |]. split; [exact A |].
      apply X; decide_header.
Defined.

(* ================================================================== *)
(** * The client address on typed headers *)

Lemma ipHeaders_lowercase :
  Forall (fun n => Str.toLowerCase n = n) GeoApi.ipHeaders.
Proof. repeat constructor. Qed.

(** One turn of the loop of [getClientIP], on a name that is its own
    lowercase. *)
Lemma getClientIP_from_cons (h : JsObject) (name : string) (rest : list string) :
  Str.toLowerCase name = name ->
  GeoApi.getClientIP_from (name :: rest) h =
    (if truthy (get h name)
     then ip <- GeoApi.firstIP (get h name) ;;
          if truthy ip then Return ip else GeoApi.getClientIP_from rest h
     else GeoApi.getClientIP_from rest h).
Proof.
  intros Hl. cbn [GeoApi.getClientIP_from]. rewrite Hl.
  destruct (truthy (get h name)) eqn:Ht; cbv zeta; now rewrite Ht.
Qed.

Lemma get_transport (h : JsObject) (name : string) :
  transportHeaders h ->
  get h name = JUndefined \/ isHeaderValue (get h name) = true.
Proof.
  induction 1 as [| [k v] rest Hv _ IH]; simpl; [now left |].
  destruct (k =? name); [now right | exact IH].
Qed.

Lemma firstIP_transport (v : JsValue) :
  isHeaderValue v = true ->
  exists ip, GeoApi.firstIP v = Return ip /\
             (truthy ip = true -> exists s, ip = JStr s /\ s <> "").
Proof.
  destruct v as [| | b | z t | s | items | conv]; try discriminate; simpl.
  - intros _. eexists. split; [reflexivity |].
    simpl. intros Ht. eexists. split; [reflexivity |].
    apply String.eqb_neq. now apply negb_true_iff.
  - intros Hitems. eexists. split; [reflexivity |].
    destruct items as [| x rest]; simpl; [discriminate |].
    simpl in Hitems. destruct x; try discriminate. simpl.
    intros Ht. eexists. split; [reflexivity |].
    apply String.eqb_neq. now apply negb_true_iff.
Qed.

Lemma getClientIP_from_transport (h : JsObject) (names : list string) :
  Forall (fun n => Str.toLowerCase n = n) names ->
  transportHeaders h ->
  exists s, GeoApi.getClientIP_from names h = Return (JStr s) /\ s <> "".
Proof.
  intros Hl Hh. induction Hl as [| name rest Hname _ IH].
  - exists "unknown". split; [reflexivity | discriminate].
  - rewrite getClientIP_from_cons by assumption.
    destruct (get_transport h name Hh) as [Hu | Hv].
    + rewrite Hu. exact IH.
    + destruct (truthy (get h name)); [| exact IH].
      destruct (firstIP_transport _ Hv) as (ip & Hip & Hs).
      rewrite Hip. cbn [bind].
      destruct (truthy ip); [| exact IH].
      destruct (Hs eq_refl) as (s & -> & Hne). now exists s.
Qed.

(* ================================================================== *)
(** * The handler's failure response *)



(* ================================================================== *)
(** * The URL validator *)

Section ValidatorFacts.

Variable newURL : string -> Result URL.t.
Variable env : ProcessEnv.

(** On a text that [new URL] rejects, the [catch] block answers. *)
Lemma isValidUrl_unparsed (s : string) (e : JsError) :
  newURL s = Throw e ->
  Utils.isValidUrlWith newURL env (JStr s) = Return false.
Proof.
  intros Hs. unfold Utils.isValidUrlWith, Utils.checkUrl.
  destruct (negb (truthy (JStr s)) || negb (typeof (JStr s) =? "string")
            || strictEqStr (JStr s) "#"); [reflexivity |].
  simpl. rewrite Hs. reflexivity.
Qed.

(** On a text that [new URL] accepts, the three tests of the [try] block
    decide. *)
Lemma isValidUrl_parsed (s : string) (u : URL.t) :
  s <> "" -> s <> "#" ->
  newURL s = Return u ->
  Utils.isValidUrlWith newURL env (JStr s) =
    Return (existsb (String.eqb (URL.protocol u)) ["http:"; "https:"] &&
            negb (URL.hostname u =? "") &&
            negb (production env &&
                  Utils.blockedHost (Str.toLowerCase (URL.hostname u)))).
Proof.
  intros Hne Hhash Hs. apply String.eqb_neq in Hne, Hhash.
  unfold Utils.isValidUrlWith, Utils.checkUrl, production.
  cbn [truthy typeof strictEqStr ToString bind].
  rewrite Hne, Hhash, Hs. cbn [bind negb orb try_catch String.eqb Ascii.eqb].
  destruct (existsb (String.eqb (URL.protocol u)) ["http:"; "https:"]);
    [| reflexivity].
  destruct (URL.hostname u) as [| a r] eqn:Hh; [reflexivity |].
  cbn [negb andb orb String.eqb String.length Nat.eqb].
  destruct (env_is env "production" &&
            Utils.blockedHost (Str.toLowerCase (String a r))); reflexivity.
Qed.

End ValidatorFacts.

Lemma blockedHost_nonempty (hostname : string) :
  Utils.blockedHost (Str.toLowerCase hostname) = true -> hostname <> "".
Proof. intros H ->. discriminate. Qed.

(** The blocklist of the code is the list of the specification. *)
Lemma blockedHost_listed (host : string) :
  Utils.blockedHost host = true <-> listedHost host.
Proof.
  unfold Utils.blockedHost, listedHost.
  rewrite !orb_true_iff, !String.eqb_eq. tauto.
Qed.

(** The URL parser on some texts: the host is lowercased, credentials and
    port are set aside, backslashes count as slashes after [http:], and a
    host that ends in a number is read as an IPv4 address, which fails when
    a number is out of range. *)
Example construct_samples :
  List.map hostnameOf
    [ "https://example.com/path"; "HTTP://User:pw@EXAMPLE.com:8080/x?y#z";
      "http:\\LOCALHOST\x"; "  http://192.168.0.1./  "; "http://0x7f.1/";
      "http://10.5"; "http://1.2.3.256"; "http://host:99999"; "http://";
      "file:///etc/passwd"; "javascript:alert(1)"; "not a url"; "#" ] =
    [ Some "example.com"; Some "example.com";
      Some "localhost"; Some "192.168.0.1"; Some "127.0.0.1";
      Some "10.0.0.5"; None; None; None;
      Some ""; Some ""; None; None ].
Proof. reflexivity. Qed.

(** The text ["http://172.300.1.1"] is no URL for this parser (the second
    number of the address is above 255): [isValidUrl] rejects it in every
    mode, through the [catch] block. *)
Remark dotted_host_above_255_is_no_url (env : ProcessEnv) :
  URL.construct "http://172.300.1.1" = Throw URL.invalid /\
  Utils.isValidUrl env (JStr "http://172.300.1.1") = Return false.
Proof. split; reflexivity. Qed.

(** C3. The test vectors of the validator, in every environment:
    ["https://example.com/path"] is accepted;
    ["javascript:alert(1)"], ["#"] and ["not a url"] are rejected;
    ["http://10.0.0.5"] is rejected in production mode and accepted in any
    other. *)
Theorem isValidUrl_test_vectors (env : ProcessEnv) :
  Utils.isValidUrl env (JStr "https://example.com/path") = Return true /\
  Utils.isValidUrl env (JStr "javascript:alert(1)") = Return false /\
  Utils.isValidUrl env (JStr "http://10.0.0.5") = Return (negb (production env)) /\
  Utils.isValidUrl env (JStr "#") = Return false /\
  Utils.isValidUrl env (JStr "not a url") = Return false.
Proof.
  unfold Utils.isValidUrl.
  split; [| split; [| split; [| split]]].
  - rewrite (isValidUrl_parsed URL.construct env _
               {| URL.protocol := "https:"; URL.hostname := "example.com" |});
      [| discriminate | discriminate | reflexivity].
    destruct (production env); reflexivity.
  - reflexivity.
  - rewrite (isValidUrl_parsed URL.construct env _
               {| URL.protocol := "http:"; URL.hostname := "10.0.0.5" |});
      [| discriminate | discriminate | reflexivity].
    destruct (production env); reflexivity.
  - reflexivity.
  - now apply (isValidUrl_unparsed URL.construct env _ URL.invalid).
Qed.

(** C8, as stated, fails. The host ["172.300.1.1"] passes the test of the
    block, yet outside production mode the URL ["http://172.300.1.1"] is
    rejected all the same: [new URL] refuses it (the second number of the
    address is above 255), and the [catch] block answers [false]. *)
Lemma listed_host_rejected_outside_production :
  listedHost "172.300.1.1" /\
  production Sample.development_env = false /\
  Utils.isValidUrl Sample.development_env (JStr "http://172.300.1.1") =
    Return false.
Proof.
  split; [do 4 right; reflexivity |]. split; reflexivity.
Qed.

(** C8, amended. Whatever [new URL] is, on a text it parses to an http or
    https URL whose lowercased host name is [localhost] or [127.0.0.1], or
    starts with [192.168.], [10.] or [172.], [isValidUrl] answers [false] in
    production mode and [true] in every other mode. The block is a test on
    the text of the parsed host name, so it reaches hosts that are not
    private: ["http://172.200.1.1"] is rejected in production mode only. A
    text that [new URL] refuses, as ["http://172.300.1.1"], is rejected in
    every mode. *)
Theorem private_hosts_blocked_in_production_only
    (newURL : string -> Result URL.t) (env : ProcessEnv)
    (s : string) (u : URL.t) :
  s <> "" -> s <> "#" ->
  newURL s = Return u ->
  URL.protocol u = "http:" \/ URL.protocol u = "https:" ->
  listedHost (Str.toLowerCase (URL.hostname u)) ->
  Utils.isValidUrlWith newURL env (JStr s) = Return (negb (production env)) /\
  Utils.isValidUrl env (JStr "http://172.200.1.1") =
    Return (negb (production env)) /\
  Utils.isValidUrl env (JStr "http://172.300.1.1") = Return false.
Proof.
  intros Hne Hhash Hs Hproto Hblocked.
  split; [| split; [| reflexivity]].
  - apply blockedHost_listed in Hblocked.
    rewrite (isValidUrl_parsed newURL env s u Hne Hhash Hs), Hblocked.
    apply blockedHost_nonempty, String.eqb_neq in Hblocked. rewrite Hblocked.
    destruct (production env); destruct Hproto as [-> | ->]; reflexivity.
  - unfold Utils.isValidUrl.
    rewrite (isValidUrl_parsed URL.construct env _
               {| URL.protocol := "http:"; URL.hostname := "172.200.1.1" |});
      [| discriminate | discriminate | reflexivity].
    destruct (production env); reflexivity.
Qed.

Lemma private_hosts_blocked_in_production_only_witness :
  URL.construct "HTTPS://10.Example.COM:8443/login" =
    Return {| URL.protocol := "https:"; URL.hostname := "10.example.com" |} /\
  (Utils.isValidUrl Sample.production_env
     (JStr "HTTPS://10.Example.COM:8443/login") = Return false /\
   Utils.isValidUrl Sample.production_env (JStr "http://172.200.1.1") =
     Return false /\
   Utils.isValidUrl Sample.production_env (JStr "http://172.300.1.1") =
     Return false) /\
  (Utils.isValidUrl Sample.development_env
     (JStr "HTTPS://10.Example.COM:8443/login") = Return true /\
   Utils.isValidUrl Sample.development_env (JStr "http://172.200.1.1") =
     Return true /\
   Utils.isValidUrl Sample.development_env (JStr "http://172.300.1.1") =
     Return false).
Proof.
  split; [reflexivity |]. split.
  - apply (private_hosts_blocked_in_production_only URL.construct
             Sample.production_env "HTTPS://10.Example.COM:8443/login"
             {| URL.protocol := "https:"; URL.hostname := "10.example.com" |});
      [discriminate | discriminate | reflexivity | right; reflexivity
      | do 3 right; left; reflexivity].
  - apply (private_hosts_blocked_in_production_only URL.construct
             Sample.development_env "HTTPS://10.Example.COM:8443/login"
             {| URL.protocol := "https:"; URL.hostname := "10.example.com" |});
      [discriminate | discriminate | reflexivity | right; reflexivity
      | do 3 right; left; reflexivity].
Defined.

(** C10. Whatever [new URL] is and does, [isValidUrl] returns a boolean on
    every value. A value that is not a string, and the empty string, are
    rejected by the guard, [new URL] not being called; a string on which
    [new URL] throws is rejected by the [catch] block. *)
Theorem isValidUrl_never_throws
    (newURL : string -> Result URL.t) (env : ProcessEnv) (url : JsValue) :
  (exists b, Utils.isValidUrlWith newURL env url = Return b) /\
  (typeof url <> "string" \/ url = JStr "" ->
   forall anyURL, Utils.isValidUrlWith anyURL env url = Return false) /\
  (forall s e, url = JStr s -> newURL s = Throw e ->
               Utils.isValidUrlWith newURL env url = Return false).
Proof.
  split; [| split].
  - unfold Utils.isValidUrlWith.
    destruct (negb (truthy url) || negb (typeof url =? "string")
              || strictEqStr url "#"); [eauto |].
    destruct (Utils.checkUrl newURL env url); simpl; eauto.
  - intros [Htype | ->] anyURL; [| reflexivity].
    unfold Utils.isValidUrlWith.
    apply String.eqb_neq in Htype. rewrite Htype.
    now rewrite orb_true_r.
  - intros s e -> Hs. now apply (isValidUrl_unparsed newURL env s e).
Qed.

(* ================================================================== *)
(** * Configuration loading *)

(** C4, as stated, fails. The default configuration has VPN detection
    enabled, not disabled. *)
Lemma default_config_enables_vpn_detection :
  defaultSetting "enableVPNDetection" = Some (Utils.JsonBool true) /\
  defaultSetting "enableVPNDetection" <> Some (Utils.JsonBool false).
Proof. split; [reflexivity | discriminate]. Qed.

(** C4, amended. [loadConfig] always returns: the parsed configuration when
    [fetch] returns a response that is [ok] and whose [json()] returns, and
    the default configuration in every other case ([fetch] throws, the
    response is not [ok], [json()] throws). The default configuration has the
    single redirect [DEFAULT], VPN detection enabled with threshold 60, and
    the wait times 1500 and 3000. *)
Theorem loadConfig_recovers
    (fetch : string -> Result Utils.FetchResponse) (configPath : option string) :
  Utils.loadConfig fetch configPath =
    Return
      match fetch match configPath with Some p => p | None => "/config.json" end
      with
      | Return response =>
          if Utils.ok response then
            match Utils.json response with
            | Return config => config
            | Throw _ => Utils.getDefaultConfig
            end
          else Utils.getDefaultConfig
      | Throw _ => Utils.getDefaultConfig
      end /\
  defaultRedirects = ["DEFAULT"] /\
  defaultSetting "enableVPNDetection" = Some (Utils.JsonBool true) /\
  defaultSetting "vpnDetectionThreshold" = Some (Utils.JsonNumber 60) /\
  defaultSetting "minWaitTime" = Some (Utils.JsonNumber 1500) /\
  defaultSetting "maxWaitTime" = Some (Utils.JsonNumber 3000).
Proof.
  split; [| repeat split].
  unfold Utils.loadConfig, Utils.fetchConfig.
  destruct (fetch _) as [response | e]; [| reflexivity].
  cbn [bind]. destruct (Utils.ok response); [| reflexivity].
  destruct (Utils.json response); reflexivity.
Qed.

(* ================================================================== *)
(** * Further properties of the endpoint *)

(** ** Validation and normalization *)

Lemma isUpper_bounds (a : ascii) :
  Str.isUpper a = true <-> (65 <= Str.code a <= 90)%nat.
Proof.
  unfold Str.isUpper, Str.between.
  rewrite andb_true_iff, !Nat.leb_le. tauto.
Qed.

(** X1. [isValidCountryCode] accepts a value exactly when it is a string of
    two code units, each a capital letter [A] to [Z]. *)
Theorem isValidCountryCode_two_capitals (code : JsValue) :
  GeoApi.isValidCountryCode code = true <->
  exists a b,
    code = JStr (String a (String b EmptyString)) /\
    (65 <= Str.code a <= 90)%nat /\ (65 <= Str.code b <= 90)%nat.
Proof.
  split.
  - destruct code as [| | x | z t | s | items | conv]; try discriminate;
      try (destruct x; discriminate); try (destruct z; discriminate).
    destruct s as [| a [| b [| x r]]]; try discriminate.
    unfold GeoApi.isValidCountryCode, GeoApi.alpha2_test. simpl.
    destruct (Str.isUpper a) eqn:Ha; [| discriminate].
    destruct (Str.isUpper b) eqn:Hb; [| discriminate].
    intros _. exists a, b. now rewrite <- !isUpper_bounds.
  - intros (a & b & -> & Ha & Hb).
    apply isUpper_bounds in Ha, Hb.
    unfold GeoApi.isValidCountryCode, GeoApi.alpha2_test. simpl.
    now rewrite Ha, Hb.
Qed.

Lemma capital_upper (a : ascii) (r : string) :
  Str.isUpper a = true ->
  Str.toUpperCase (String a r) = String a (Str.toUpperCase r) /\
  Str.toUpperCase (String (Str.lower a) r) = String a (Str.toUpperCase r).
Proof.
  destruct a as [[] [] [] [] [] [] [] []]; try discriminate; split; reflexivity.
Qed.

Lemma blank_upper (c : ascii) (r : string) :
  Str.isWhiteSpace c = true ->
  Str.toUpperCase (String c r) = String c (Str.toUpperCase r).
Proof.
  destruct c as [[] [] [] [] [] [] [] []]; try discriminate; reflexivity.
Qed.

Lemma capital_not_space (a : ascii) :
  Str.isUpper a = true -> Str.isWhiteSpace a = false.
Proof.
  destruct a as [[] [] [] [] [] [] [] []]; try discriminate; reflexivity.
Qed.

Lemma validCode_capitals (c : string) :
  validCode c ->
  exists a b, c = String a (String b EmptyString) /\
              Str.isUpper a = true /\ Str.isUpper b = true.
Proof.
  intros H. apply validCode_alpha2 in H.
  destruct c as [| a [| b [| x r]]]; try discriminate.
  apply andb_prop in H. eauto.
Qed.

(** Uppercasing goes through concatenation and leaves blanks alone. *)
Lemma toUpperCase_app (s t : string) :
  Str.toUpperCase (s ++ t) = (Str.toUpperCase s ++ Str.toUpperCase t)%string.
Proof.
  induction s as [| c r IH]; [reflexivity |].
  cbn [append Str.toUpperCase]. rewrite IH.
  destruct (Nat.eqb (Str.code c) 223); reflexivity.
Qed.

Lemma toUpperCase_blank (s : string) :
  isBlank s = true -> Str.toUpperCase s = s.
Proof.
  induction s as [| c r IH]; [reflexivity |].
  cbn [isBlank]. intros H. apply andb_prop in H as [Hc Hr].
  now rewrite (blank_upper c r Hc), (IH Hr).
Qed.

Lemma trimStart_blank_app (pre s : string) :
  isBlank pre = true -> Str.trimStart (pre ++ s) = Str.trimStart s.
Proof.
  induction pre as [| c r IH]; [reflexivity |].
  cbn [isBlank append Str.trimStart]. intros H.
  apply andb_prop in H as [Hc Hr]. rewrite Hc. now apply IH.
Qed.

Lemma trimEnd_blank (post : string) :
  isBlank post = true -> Str.trimEnd post = "".
Proof.
  induction post as [| c r IH]; [reflexivity |].
  cbn [isBlank Str.trimEnd]. intros H. apply andb_prop in H as [Hc Hr].
  now rewrite (IH Hr), Hc.
Qed.

Lemma trimEnd_app_blank (s post : string) :
  isBlank post = true -> Str.trimEnd (s ++ post) = Str.trimEnd s.
Proof.
  intros Hp. induction s as [| c r IH]; [now apply trimEnd_blank |].
  cbn [append Str.trimEnd]. now rewrite IH.
Qed.

(** With blanks before and after, a valid code and its lowercase form
    normalize to the code. *)
Lemma normalize_valid (c pre post : string) :
  validCode c ->
  isBlank pre = true ->
  isBlank post = true ->
  GeoApi.normalize (JStr (pre ++ c ++ post)) = Return c /\
  GeoApi.normalize (JStr (pre ++ Str.toLowerCase c ++ post)) = Return c.
Proof.
  intros H Hpre Hpost.
  destruct (validCode_capitals c H) as (a & b & -> & Ha & Hb).
  assert (Htrim : Str.trim (pre ++ String a (String b "") ++ post)
                  = String a (String b "")).
  { unfold Str.trim. rewrite trimStart_blank_app by assumption.
    change (String a (String b "") ++ post)%string
      with (String a (String b "" ++ post)).
    cbn [Str.trimStart]. rewrite (capital_not_space a Ha).
    change (String a (String b "" ++ post))
      with (String a (String b "") ++ post)%string.
    rewrite trimEnd_app_blank by assumption.
    cbn [Str.trimEnd].
    now rewrite (capital_not_space a Ha), (capital_not_space b Hb). }
  unfold GeoApi.normalize. cbn [ToString bind].
  rewrite !toUpperCase_app, !(toUpperCase_blank pre Hpre),
    !(toUpperCase_blank post Hpost).
  cbn [Str.toLowerCase Str.map].
  rewrite (proj1 (capital_upper a _ Ha)), (proj2 (capital_upper a _ Ha)),
    (proj1 (capital_upper b _ Hb)), (proj2 (capital_upper b _ Hb)).
  cbn [Str.toUpperCase]. now rewrite Htrim.
Qed.

Lemma padded_truthy (pre post : string) (a : ascii) (r : string) :
  truthy (JStr (pre ++ String a r ++ post)) = true.
Proof. destruct pre; reflexivity. Qed.

(** A map of one exact header that carries a valid code resolves to it. *)
Lemma detectCountry_single (name c : string) (v : JsValue) :
  In name GeoApi.vercelHeaders ->
  truthy v = true ->
  GeoApi.normalize v = Return c ->
  validCode c ->
  GeoApi.detectCountry [(name, v)] = Return c.
Proof.
  intros Hname Ht Hn Hv. unfold validCode in Hv.
  assert (Hstep : forall k : Result string,
             (if truthy v
              then code <- GeoApi.normalize v ;;
                   if GeoApi.isValidCountryCode (JStr code) then Return code
                   else k
              else k) = Return c).
  { intros k. rewrite Ht, Hn. cbn [bind]. now rewrite Hv. }
  unfold GeoApi.vercelHeaders in Hname. simpl in Hname.
  destruct Hname as [<- | [<- | [<- | [<- | [<- | []]]]]];
    unfold GeoApi.detectCountry, GeoApi.vercelHeaders;
    cbn [GeoApi.scanExact get String.eqb Ascii.eqb Bool.eqb truthy];
    rewrite ?Hstep; cbn [bind];
    (destruct (c =? "XX") eqn:Hxx;
     [ cbn [keys keys_from existsb GeoApi.scanFuzzy];
       change (GeoApi.fuzzyName _) with true;
       cbn [get String.eqb Ascii.eqb Bool.eqb];
       rewrite Hstep; cbn [bind]; rewrite Hxx; reflexivity
     | cbn [bind]; rewrite Hxx; reflexivity ]).
Qed.

(** X2. Under any of the five exact header names, a valid code is detected
    as it is, and so is its lowercase form, each with any white space
    before and after it (none included): normalization brings all of them
    back to the code. *)
Theorem valid_code_detected_in_any_case (name c pre post : string) :
  In name GeoApi.vercelHeaders ->
  validCode c ->
  isBlank pre = true ->
  isBlank post = true ->
  GeoApi.detectCountry [(name, JStr (pre ++ c ++ post))] = Return c /\
  GeoApi.detectCountry [(name, JStr (pre ++ Str.toLowerCase c ++ post))] =
    Return c.
Proof.
  intros Hname Hc Hpre Hpost.
  destruct (normalize_valid c pre post Hc Hpre Hpost) as (N1 & N2).
  destruct (validCode_capitals c Hc) as (a & b & -> & _ & _).
  split; apply detectCountry_single; auto; apply padded_truthy.
Qed.

Lemma valid_code_detected_in_any_case_witness :
  isBlank (String (ascii_of_nat 9) " ") = true /\
  (GeoApi.detectCountry [("X-VERCEL-IP-COUNTRY", JStr "BR")] = Return "BR" /\
   GeoApi.detectCountry [("X-VERCEL-IP-COUNTRY", JStr "br")] = Return "BR") /\
  (GeoApi.detectCountry
     [("X-VERCEL-IP-COUNTRY",
       JStr (String (ascii_of_nat 9) " " ++ "BR" ++ "   "))] = Return "BR" /\
   GeoApi.detectCountry
     [("X-VERCEL-IP-COUNTRY",
       JStr (String (ascii_of_nat 9) " " ++ Str.toLowerCase "BR" ++ "   "))] =
     Return "BR").
Proof.
  split; [reflexivity |]. split.
  - apply (valid_code_detected_in_any_case "X-VERCEL-IP-COUNTRY" "BR" "" "");
      [right; right; left; reflexivity | reflexivity ..].
  - apply (valid_code_detected_in_any_case "X-VERCEL-IP-COUNTRY" "BR"
             (String (ascii_of_nat 9) " ") "   ");
      [right; right; left; reflexivity | reflexivity ..].
Defined.

(* ------------------------------------------------------------------ *)
(** ** The client address *)

Lemma getClientIP_from_none (h : JsObject) (names : list string) :
  Forall (fun n => Str.toLowerCase n = n) names ->
  Forall (noIP h) names ->
  GeoApi.getClientIP_from names h = Return (JStr "unknown").
Proof.
  intros Hl Hn. induction Hn as [| name rest Hname _ IH]; [reflexivity |].
  inversion Hl as [| ? ? Hname_l Hrest_l]; subst.
  rewrite getClientIP_from_cons by assumption.
  destruct Hname as [Hf | (ip & Hip & Hf)].
  - rewrite Hf. now apply IH.
  - destruct (truthy (get h name)); [| now apply IH].
    rewrite Hip. cbn [bind]. rewrite Hf. now apply IH.
Qed.

Lemma getClientIP_from_first
    (h : JsObject) (before after : list string) (name : string) (ip : JsValue) :
  Forall (fun n => Str.toLowerCase n = n) (before ++ name :: after) ->
  Forall (noIP h) before ->
  givesIP h name ip ->
  GeoApi.getClientIP_from (before ++ name :: after) h = Return ip.
Proof.
  intros Hl Hb (Ht & Hip & Htip).
  induction Hb as [| b rest Hbn _ IH]; simpl app in *;
    inversion Hl as [| ? ? Hhead Htail]; subst;
    rewrite getClientIP_from_cons by assumption.
  - rewrite Ht, Hip. cbn [bind]. now rewrite Htip.
  - destruct Hbn as [Hf | (x & Hx & Hf)].
    + rewrite Hf. now apply IH.
    + destruct (truthy (get h b)); [| now apply IH].
      rewrite Hx. cbn [bind]. rewrite Hf. now apply IH.
Qed.

(** X3. The headers are tried in the order of [ipHeaders]: the first one
    whose value is truthy and has a truthy first item (the trimmed text
    before the first comma of a string, the first element of an array)
    gives the result; a header whose first item is blank is passed over for
    the next header, not for its own second item. *)
Theorem getClientIP_first_address
    (h : JsObject) (before after : list string) (name : string) (ip : JsValue) :
  GeoApi.ipHeaders = before ++ name :: after ->
  Forall (noIP h) before ->
  givesIP h name ip ->
  GeoApi.getClientIP h = Return ip.
Proof.
  intros Hnames Hb Hip. unfold GeoApi.getClientIP. rewrite Hnames.
  apply getClientIP_from_first; [| assumption | assumption].
  rewrite <- Hnames. exact ipHeaders_lowercase.
Qed.

Lemma getClientIP_first_address_witness :
  GeoApi.getClientIP Demo.forwarded_chain = Return (JStr "203.0.113.7") /\
  GeoApi.getClientIP Demo.blank_first_hop =
    Return (JStr "198.51.100.2, 10.0.0.1").
Proof.
  split.
  - apply (getClientIP_first_address Demo.forwarded_chain
             [] ["x-real-ip"; "cf-connecting-ip"; "x-client-ip";
                 "x-forwarded"; "forwarded-for"; "forwarded"]
             "x-forwarded-for").
    + reflexivity.
    + constructor.
    + repeat split; reflexivity.
  - apply (getClientIP_first_address Demo.blank_first_hop
             ["x-forwarded-for"]
             ["cf-connecting-ip"; "x-client-ip"; "x-forwarded";
              "forwarded-for"; "forwarded"]
             "x-real-ip").
    + reflexivity.
    + constructor; [| constructor].
      right. eexists. split; reflexivity.
    + repeat split; reflexivity.
Defined.

(** X4. When none of the seven headers gives an address, the result is the
    text ["unknown"]. *)
Theorem getClientIP_unknown (h : JsObject) :
  Forall (noIP h) GeoApi.ipHeaders ->
  GeoApi.getClientIP h = Return (JStr "unknown").
Proof.
  intros Hn. apply getClientIP_from_none; [exact ipHeaders_lowercase | exact Hn].
Qed.

Lemma getClientIP_unknown_witness :
  GeoApi.getClientIP Demo.no_address = Return (JStr "unknown").
Proof.
  apply (getClientIP_unknown Demo.no_address).
  repeat (constructor;
          [first [ left; reflexivity
                 | right; eexists; split; reflexivity ] |]).
  constructor.
Defined.

(** X5. On headers as the transport gives them (strings and arrays of
    strings) [getClientIP] does not throw, and what it returns is a string
    that is not empty. *)
Theorem getClientIP_nonempty_string (h : JsObject) :
  transportHeaders h ->
  exists s, GeoApi.getClientIP h = Return (JStr s) /\ s <> "".
Proof.
  intros Hh. apply getClientIP_from_transport; [| exact Hh].
  exact ipHeaders_lowercase.
Qed.

Lemma getClientIP_nonempty_string_witness :
  transportHeaders Demo.blank_first_hop /\
  exists s, GeoApi.getClientIP Demo.blank_first_hop = Return (JStr s) /\
            s <> "".
Proof.
  split; [repeat constructor |].
  apply (getClientIP_nonempty_string Demo.blank_first_hop).
  repeat constructor.
Defined.

(** *** Commas and blanks *)

Lemma includes_comma_cons (c : ascii) (r : string) :
  Str.includes (String c r) "," = (Ascii.eqb c "," || Str.includes r ",").
Proof.
  cbn [Str.includes String.prefix].
  destruct (ascii_dec "," c) as [<- | Hne].
  - destruct r; reflexivity.
  - assert (E : Ascii.eqb c "," = false)
      by (apply Ascii.eqb_neq; congruence).
    now rewrite E.
Qed.

Lemma beforeFirst_no_comma (s : string) :
  Str.includes (Str.beforeFirst "," s) "," = false.
Proof.
  induction s as [| c r IH]; [reflexivity |].
  cbn [Str.beforeFirst]. destruct (Ascii.eqb c ",") eqn:E; [reflexivity |].
  now rewrite includes_comma_cons, E, IH.
Qed.

Lemma trimStart_no_comma (s : string) :
  Str.includes s "," = false -> Str.includes (Str.trimStart s) "," = false.
Proof.
  induction s as [| c r IH]; [trivial |].
  intros H. cbn [Str.trimStart].
  destruct (Str.isWhiteSpace c); [| exact H].
  rewrite includes_comma_cons in H. apply orb_false_elim in H as [_ H].
  now apply IH.
Qed.

Lemma trimEnd_no_comma (s : string) :
  Str.includes s "," = false -> Str.includes (Str.trimEnd s) "," = false.
Proof.
  induction s as [| c r IH]; [trivial |].
  intros H. rewrite includes_comma_cons in H.
  apply orb_false_elim in H as [Hc Hr]. specialize (IH Hr).
  cbn [Str.trimEnd]. destruct (Str.trimEnd r) as [| c' r'].
  - destruct (Str.isWhiteSpace c); [reflexivity |].
    now rewrite includes_comma_cons, Hc.
  - now rewrite includes_comma_cons, Hc, IH.
Qed.

Lemma trimEnd_idempotent (s : string) :
  Str.trimEnd (Str.trimEnd s) = Str.trimEnd s.
Proof.
  induction s as [| c r IH]; [reflexivity |].
  cbn [Str.trimEnd]. destruct (Str.trimEnd r) as [| c' r'] eqn:E.
  - destruct (Str.isWhiteSpace c) eqn:W; [reflexivity |].
    cbn [Str.trimEnd]. now rewrite W.
  - change (Str.trimEnd (String c (String c' r')))
      with (match Str.trimEnd (String c' r') with
            | EmptyString =>
                if Str.isWhiteSpace c then EmptyString else String c EmptyString
            | r'' => String c r''
            end).
    now rewrite IH.
Qed.

Lemma trimStart_clean (s : string) : startsClean (Str.trimStart s).
Proof.
  induction s as [| c r IH]; [exact I |].
  cbn [Str.trimStart]. destruct (Str.isWhiteSpace c) eqn:W; [exact IH | exact W].
Qed.

Lemma trimEnd_clean (s : string) : startsClean s -> startsClean (Str.trimEnd s).
Proof.
  destruct s as [| c r]; [trivial |].
  cbn [startsClean Str.trimEnd]. intros W.
  destruct (Str.trimEnd r); [now rewrite W | exact W].
Qed.

Lemma trimStart_of_clean (s : string) : startsClean s -> Str.trimStart s = s.
Proof.
  destruct s as [| c r]; [reflexivity |].
  cbn [startsClean Str.trimStart]. now intros ->.
Qed.

Lemma trim_idempotent (s : string) : Str.trim (Str.trim s) = Str.trim s.
Proof.
  unfold Str.trim.
  rewrite (trimStart_of_clean (Str.trimEnd (Str.trimStart s)))
    by apply trimEnd_clean, trimStart_clean.
  apply trimEnd_idempotent.
Qed.

Lemma get_string (h : JsObject) (name : string) :
  stringHeaders h ->
  get h name = JUndefined \/ exists s, get h name = JStr s.
Proof.
  induction 1 as [| [k v] rest Hv _ IH]; simpl; [now left |].
  destruct (k =? name); [now right | exact IH].
Qed.

Lemma getClientIP_from_strings (h : JsObject) (names : list string) :
  Forall (fun n => Str.toLowerCase n = n) names ->
  stringHeaders h ->
  exists s, GeoApi.getClientIP_from names h = Return (JStr s) /\ cleanAddress s.
Proof.
  intros Hl Hh. induction Hl as [| name rest Hname _ IH].
  - exists "unknown". split; [reflexivity |].
    split; [discriminate | split; reflexivity].
  - rewrite getClientIP_from_cons by assumption.
    destruct (get_string h name Hh) as [Hu | [s Hs]].
    + rewrite Hu. exact IH.
    + rewrite Hs. destruct (truthy (JStr s)); [| exact IH].
      cbn [GeoApi.firstIP bind].
      destruct (truthy (JStr (Str.trim (Str.beforeFirst "," s)))) eqn:Ht;
        [| exact IH].
      eexists. split; [reflexivity |]. split; [| split].
      * apply String.eqb_neq. now apply negb_true_iff.
      * apply trimEnd_no_comma, trimStart_no_comma, beforeFirst_no_comma.
      * apply trim_idempotent.
Qed.

(** X6. When every header value is a string, the address [getClientIP]
    returns is not empty, holds no comma and has no white space at either
    end: of a list such as ["a , b"] it is the first item alone. *)
Theorem getClientIP_clean_address (h : JsObject) :
  stringHeaders h ->
  exists s, GeoApi.getClientIP h = Return (JStr s) /\
            s <> "" /\ Str.includes s "," = false /\ Str.trim s = s.
Proof.
  intros Hh.
  destruct (getClientIP_from_strings h GeoApi.ipHeaders ipHeaders_lowercase Hh)
    as (s & E & C).
  exists s. split; [exact E | exact C].
Qed.

Lemma getClientIP_clean_address_witness :
  stringHeaders Demo.forwarded_chain /\
  exists s, GeoApi.getClientIP Demo.forwarded_chain = Return (JStr s) /\
            s <> "" /\ Str.includes s "," = false /\ Str.trim s = s.
Proof.
  split; [repeat (constructor; [eexists; reflexivity |]); constructor |].
  apply (getClientIP_clean_address Demo.forwarded_chain).
  repeat (constructor; [eexists; reflexivity |]); constructor.
Defined.

(* ------------------------------------------------------------------ *)
(** ** Where a detected code comes from *)

(** One turn of either loop that ends with [c] took it from the header or
    from the rest of the loop. *)
Lemma step_origin (h : JsObject) (name c : string) (k : Result string) :
  (if truthy (get h name)
   then code <- GeoApi.normalize (get h name) ;;
        if GeoApi.isValidCountryCode (JStr code) then Return code else k
   else k) = Return c ->
  carries h name c \/ k = Return c.
Proof.
  destruct (truthy (get h name)) eqn:Ht; [| now right].
  destruct (GeoApi.normalize (get h name)) as [s | e] eqn:Hn; [| discriminate].
  cbn [bind].
  destruct (GeoApi.isValidCountryCode (JStr s)) eqn:Hv; [| now right].
  intros E. injection E as <-. left. now repeat split.
Qed.

Lemma scanExact_origin (h : JsObject) (names : list string) (country c : string) :
  GeoApi.scanExact names h country = Return c ->
  c = country \/ exists name, In name names /\ carries h name c.
Proof.
  induction names as [| name rest IH]; simpl.
  - intros E. injection E as <-. now left.
  - intros E. apply step_origin in E as [Hc | E].
    + right. exists name. split; [now left | exact Hc].
    + destruct (IH E) as [-> | (n & Hn & Hc)]; [now left |].
      right. exists n. split; [now right | exact Hc].
Qed.

Lemma scanFuzzy_origin (h : JsObject) (ks : list string) (country c : string) :
  GeoApi.scanFuzzy ks h country = Return c ->
  c = country \/
  exists key, In key ks /\ GeoApi.fuzzyName key = true /\ carries h key c.
Proof.
  induction ks as [| key rest IH]; simpl.
  - intros E. injection E as <-. now left.
  - intros E.
    assert (Hrest : GeoApi.scanFuzzy rest h country = Return c ->
                    c = country \/
                    exists key0, In key0 (key :: rest) /\
                                 GeoApi.fuzzyName key0 = true /\
                                 carries h key0 c).
    { intros E'. destruct (IH E') as [-> | (n & Hn & Hf & Hc)]; [now left |].
      right. exists n. split; [now right | now split]. }
    destruct (GeoApi.fuzzyName key) eqn:Hf; [| now apply Hrest].
    apply step_origin in E as [Hc | E]; [| now apply Hrest].
    right. exists key. split; [now left | now split].
Qed.

(** X7. [detectCountry] invents no code: a result other than ["XX"] is the
    normalized, valid value of a header of the map, found under one of the
    five exact names, under a key of the map with [vercel] and [country] in
    its lowercase name, or under [cf-ipcountry]. *)
Theorem detectCountry_code_comes_from_a_header (h : JsObject) (c : string) :
  GeoApi.detectCountry h = Return c ->
  c <> "XX" ->
  exists name,
    carries h name c /\
    (In name GeoApi.vercelHeaders \/
     (In name (keys h) /\ GeoApi.fuzzyName name = true) \/
     name = "cf-ipcountry").
Proof.
  unfold GeoApi.detectCountry. intros E Hc.
  destruct (GeoApi.scanExact GeoApi.vercelHeaders h "XX") as [c1 | e1] eqn:E1;
    [| discriminate].
  cbn [bind] in E.
  apply scanExact_origin in E1.
  destruct (c1 =? "XX") eqn:X1.
  - apply String.eqb_eq in X1. subst c1.
    destruct (GeoApi.scanFuzzy (keys h) h "XX") as [c2 | e2] eqn:E2;
      [| discriminate].
    cbn [bind] in E. apply scanFuzzy_origin in E2.
    destruct ((c2 =? "XX") && truthy (get h "cf-ipcountry")) eqn:G.
    + apply andb_prop in G as [_ Ht].
      destruct (GeoApi.normalize (get h "cf-ipcountry")) as [s | e] eqn:Hn;
        [| discriminate].
      cbn [bind] in E.
      destruct (GeoApi.isValidCountryCode (JStr s)) eqn:Hv.
      * injection E as <-. exists "cf-ipcountry".
        split; [now repeat split | now right; right].
      * injection E as <-.
        destruct E2 as [-> | (key & Hk & Hf & Hcar)]; [contradiction |].
        exists key. split; [exact Hcar | right; left; now split].
    + injection E as <-.
      destruct E2 as [-> | (key & Hk & Hf & Hcar)]; [contradiction |].
      exists key. split; [exact Hcar | right; left; now split].
  - cbn [bind] in E. rewrite X1 in E. cbn [andb] in E. injection E as <-.
    destruct E1 as [-> | (name & Hn & Hcar)]; [contradiction |].
    exists name. split; [exact Hcar | now left].
Qed.

Lemma detectCountry_code_comes_from_a_header_witness :
  exists name,
    carries Sample.fuzzy_candidates name "DE" /\
    (In name GeoApi.vercelHeaders \/
     (In name (keys Sample.fuzzy_candidates) /\ GeoApi.fuzzyName name = true) \/
     name = "cf-ipcountry").
Proof.
  apply (detectCountry_code_comes_from_a_header Sample.fuzzy_candidates "DE").
  - reflexivity.
  - discriminate.
Defined.

(* ------------------------------------------------------------------ *)
(** ** Headers that have no say *)

Lemma get_other (h : JsObject) (k name : string) (v : JsValue) :
  k <> name -> get ((k, v) :: h) name = get h name.
Proof.
  intros Hne. cbn [get]. apply String.eqb_neq in Hne. now rewrite Hne.
Qed.

Lemma vercelHeaders_fuzzy :
  Forall (fun n => GeoApi.fuzzyName n = true) GeoApi.vercelHeaders.
Proof. repeat constructor. Qed.

(** The scan of stage 2 sees the keys that pass the test of the name, in
    their order, and nothing else. *)
Lemma scanFuzzy_filter (h : JsObject) (ks : list string) (country : string) :
  GeoApi.scanFuzzy ks h country =
  GeoApi.scanFuzzy (filter GeoApi.fuzzyName ks) h country.
Proof.
  induction ks as [| k rest IH]; [reflexivity |].
  cbn [GeoApi.scanFuzzy filter].
  destruct (GeoApi.fuzzyName k) eqn:Hk; [| exact IH].
  cbn [GeoApi.scanFuzzy]. rewrite Hk, IH. reflexivity.
Qed.

Lemma scanFuzzy_agree (h h' : JsObject) (ks : list string) (country : string) :
  (forall k, In k ks -> GeoApi.fuzzyName k = true -> get h' k = get h k) ->
  GeoApi.scanFuzzy ks h' country = GeoApi.scanFuzzy ks h country.
Proof.
  induction ks as [| k rest IH]; intros Ha; [reflexivity |].
  cbn [GeoApi.scanFuzzy].
  rewrite IH by (intros n Hn; apply Ha; now right).
  destruct (GeoApi.fuzzyName k) eqn:Hk; [| reflexivity].
  now rewrite (Ha k (or_introl eq_refl) Hk).
Qed.

(** Among the keys that pass a test, [keys_from] depends on the keys already
    seen only through those that pass it. *)
Lemma filter_keys_from (p : string -> bool) (o : JsObject) :
  forall seen seen' : list string,
    (forall x, p x = true ->
               existsb (String.eqb x) seen = existsb (String.eqb x) seen') ->
    filter p (keys_from seen o) = filter p (keys_from seen' o).
Proof.
  induction o as [| [k v] rest IH]; intros seen seen' Hs; [reflexivity |].
  cbn [keys_from].
  assert (Hnext : forall s s' : list string,
             (forall x, p x = true ->
                existsb (String.eqb x) s = existsb (String.eqb x) s') ->
             forall x, p x = true ->
               existsb (String.eqb x) (k :: s) =
               existsb (String.eqb x) (k :: s')).
  { intros s s' H x Hx. cbn [existsb]. now rewrite (H x Hx). }
  destruct (p k) eqn:Hk.
  - rewrite (Hs k Hk).
    destruct (existsb (String.eqb k) seen'); [now apply IH |].
    cbn [filter]. rewrite Hk. f_equal. apply IH. now apply Hnext.
  - assert (Hdrop : forall s : list string,
               forall x, p x = true ->
                 existsb (String.eqb x) (k :: s) = existsb (String.eqb x) s).
    { intros s x Hx. cbn [existsb].
      destruct (String.eqb_spec x k) as [-> | _]; [congruence | reflexivity]. }
    destruct (existsb (String.eqb k) seen), (existsb (String.eqb k) seen');
      cbn [filter]; rewrite ?Hk; apply IH; intros x Hx;
      rewrite ?(Hdrop seen x Hx), ?(Hdrop seen' x Hx); now apply Hs.
Qed.

(** X8. A header whose lowercase name does not contain both [vercel] and
    [country], and which is not [cf-ipcountry], has no say: setting it, to
    any value, leaves the outcome of [detectCountry] as it was (the detected
    code, or the exception). *)
Theorem detectCountry_ignores_other_headers
    (h : JsObject) (k : string) (v : JsValue) :
  GeoApi.fuzzyName k = false ->
  k <> "cf-ipcountry" ->
  GeoApi.detectCountry ((k, v) :: h) = GeoApi.detectCountry h.
Proof.
  intros Hk Hcf.
  assert (Hget : forall n, GeoApi.fuzzyName n = true ->
                           get ((k, v) :: h) n = get h n).
  { intros n Hn. apply get_other. intros ->. congruence. }
  assert (H1 : forall country,
             GeoApi.scanExact GeoApi.vercelHeaders ((k, v) :: h) country =
             GeoApi.scanExact GeoApi.vercelHeaders h country).
  { intros country. apply scanExact_agree. intros n Hn. apply Hget.
    exact (proj1 (Forall_forall _ _) vercelHeaders_fuzzy n Hn). }
  assert (H2 : forall country,
             GeoApi.scanFuzzy (keys ((k, v) :: h)) ((k, v) :: h) country =
             GeoApi.scanFuzzy (keys h) h country).
  { intros country.
    rewrite (scanFuzzy_agree h ((k, v) :: h)) by (intros n _; apply Hget).
    rewrite scanFuzzy_filter, (scanFuzzy_filter h (keys h)).
    f_equal. unfold keys. cbn [keys_from existsb filter]. rewrite Hk.
    apply filter_keys_from. intros x Hx. cbn [existsb].
    destruct (String.eqb_spec x k) as [-> | _]; [congruence | reflexivity]. }
  unfold GeoApi.detectCountry.
  rewrite H1, (get_other h k "cf-ipcountry" v Hcf).
  destruct (GeoApi.scanExact GeoApi.vercelHeaders h "XX") as [c1 | e1];
    [| reflexivity].
  cbn [bind]. now rewrite H2.
Qed.

Lemma detectCountry_ignores_other_headers_witness :
  GeoApi.detectCountry
    (("x-forwarded-for", Sample.unprintable) :: Sample.fuzzy_candidates) =
  GeoApi.detectCountry Sample.fuzzy_candidates.
Proof.
  apply (detectCountry_ignores_other_headers Sample.fuzzy_candidates
           "x-forwarded-for" Sample.unprintable).
  - reflexivity.
  - discriminate.
Defined.

(* ================================================================== *)
(** * Further properties of the handler *)

Lemma putHeader_In (name value : string) (hs : list (string * string)) :
  In (name, value) (GeoApi.putHeader name value hs).
Proof.
  induction hs as [| [n v] rest IH]; cbn [GeoApi.putHeader]; [now left |].
  destruct (Str.toLowerCase n =? Str.toLowerCase name); [now left | now right].
Qed.

Lemma putHeader_keeps (name value n v : string) (hs : list (string * string)) :
  Str.toLowerCase n <> Str.toLowerCase name ->
  In (n, v) hs ->
  In (n, v) (GeoApi.putHeader name value hs).
Proof.
  intros Hne. induction hs as [| [n' v'] rest IH]; cbn [GeoApi.putHeader];
    [intros [] |].
  intros [E | Hin].
  - injection E as -> ->. apply String.eqb_neq in Hne. rewrite Hne. now left.
  - destruct (Str.toLowerCase n' =? Str.toLowerCase name);
      [now right | right; now apply IH].
Qed.

(** X9. A request whose header values are strings or arrays of strings and
    whose method is neither [GET] nor [POST], spelled so, is answered with
    status 405, the header [Allow: GET, POST] and the body
    [{ error: 'Method not allowed', country: 'XX' }], whatever its country
    headers hold. *)
Theorem handler_method_not_allowed
    (env : ProcessEnv) (clock : GeoApi.Clock) (req : GeoApi.Request)
    (res : GeoApi.Response) :
  transportHeaders (GeoApi.headers req) ->
  GeoApi.method req <> "GET" ->
  GeoApi.method req <> "POST" ->
  exists res',
    GeoApi.handler env clock req res = (res', Return tt) /\
    GeoApi.statusCode res' = 405 /\
    GeoApi.sent res' = Some (GeoApi.ErrorBody "Method not allowed" "XX" None) /\
    In ("Allow", "GET, POST") (GeoApi.resHeaders res').
Proof.
  intros Hh Hget Hpost. apply String.eqb_neq in Hget, Hpost.
  destruct (getClientIP_from_transport (GeoApi.headers req) GeoApi.ipHeaders
              ipHeaders_lowercase Hh) as (ip & Hip & _).
  change (GeoApi.getClientIP_from GeoApi.ipHeaders (GeoApi.headers req))
    with (GeoApi.getClientIP (GeoApi.headers req)) in Hip.
  unfold GeoApi.handler, GeoApi.andThen, GeoApi.lift.
  rewrite Hip, Hget, Hpost. cbn.
  eexists. split; [reflexivity |]. cbn.
  split; [reflexivity |]. split; [reflexivity |]. apply putHeader_In.
Qed.

Lemma handler_method_not_allowed_witness :
  GeoApi.detectCountry (GeoApi.headers Demo.lowercase_get) = Return "US" /\
  exists res',
    GeoApi.handler Sample.development_env Sample.noon Demo.lowercase_get
                   GeoApi.freshResponse = (res', Return tt) /\
    GeoApi.statusCode res' = 405 /\
    GeoApi.sent res' = Some (GeoApi.ErrorBody "Method not allowed" "XX" None) /\
    In ("Allow", "GET, POST") (GeoApi.resHeaders res').
Proof.
  split; [reflexivity |].
  apply (handler_method_not_allowed Sample.development_env Sample.noon
           Demo.lowercase_get GeoApi.freshResponse).
  - repeat constructor.
  - discriminate.
  - discriminate.
Defined.

Lemma detectCountry_converts (h : JsObject) :
  Forall (fun kv => converts (snd kv)) h ->
  exists c, GeoApi.detectCountry h = Return c /\ validCode c.
Proof.
  intros Hh. unfold GeoApi.detectCountry.
  destruct (scanExact_valid h GeoApi.vercelHeaders "XX" Hh XX_valid)
    as (c1 & E1 & V1).
  rewrite E1. cbn [bind].
  assert (H2 : exists c2,
             (if c1 =? "XX" then GeoApi.scanFuzzy (keys h) h c1 else Return c1)
             = Return c2 /\ validCode c2).
  { destruct (c1 =? "XX"); [now apply scanFuzzy_valid | eauto]. }
  destruct H2 as (c2 & E2 & V2). rewrite E2. cbn [bind].
  destruct ((c2 =? "XX") && truthy (get h "cf-ipcountry")); [| eauto].
  destruct (normalize_converts _ (get_converts h "cf-ipcountry" Hh)) as [s Hs].
  rewrite Hs. cbn [bind].
  destruct (GeoApi.isValidCountryCode (JStr s)) eqn:Vs; eauto.
Qed.

Lemma transport_converts (h : JsObject) :
  transportHeaders h -> Forall (fun kv => converts (snd kv)) h.
Proof.
  induction 1 as [| kv rest Hkv _ IH]; constructor; [| exact IH].
  now apply headerValue_converts.
Qed.

Lemma isDebugMode_returns (env : ProcessEnv) (req : GeoApi.Request) :
  GeoApi.query req <> None \/ development env = true ->
  exists d, GeoApi.isDebugMode env req = Return d.
Proof.
  unfold GeoApi.isDebugMode, GeoApi.queryDebug, development.
  intros [Hq | ->]; [| eauto].
  destruct (env_is env "development"); [eauto |].
  destruct (GeoApi.query req) as [q |]; [| contradiction].
  cbn [bind]. destruct (strictEqStr (get q "debug") "true"); eauto.
Qed.

(** The response after the five [setHeader] calls of the [try] block. *)
Lemma tryBlock_returns
    (env : ProcessEnv) (clock : GeoApi.Clock) (req : GeoApi.Request)
    (clientIP : JsValue) (res : GeoApi.Response) (c : string) (d : bool) :
  GeoApi.detectCountry (GeoApi.headers req) = Return c ->
  GeoApi.isDebugMode env req = Return d ->
  exists res',
    GeoApi.tryBlock env clock req clientIP res = (res', Return tt) /\
    GeoApi.statusCode res' = 200 /\
    GeoApi.sent res' =
      Some (GeoApi.OkBody c (GeoApi.isoNow clock)
              (if d then Some (GeoApi.debugInfo clock req c clientIP)
               else None)) /\
    GeoApi.resHeaders res' =
      GeoApi.putHeader "X-Content-Type-Options" "nosniff"
        (GeoApi.putHeader "Expires" "0"
           (GeoApi.putHeader "Pragma" "no-cache"
              (GeoApi.putHeader "Cache-Control"
                 "no-cache, no-store, must-revalidate"
                 (GeoApi.putHeader "Content-Type" "application/json"
                    (GeoApi.resHeaders res))))).
Proof.
  intros Hc Hd.
  unfold GeoApi.tryBlock, GeoApi.andThen, GeoApi.lift, GeoApi.setHeader,
    GeoApi.statusJson.
  rewrite Hc, Hd. eexists. split; [reflexivity |].
  cbn. repeat split; reflexivity.
Qed.

(** X10. On a GET or POST request whose header values are strings or arrays
    of strings, and whose [query] exists (or in development mode, where it
    is not read), [handler] answers with status 200; the body holds the code
    [detectCountry] gives, two capital letters, and the time stamp; and the
    response forbids caching and content sniffing. *)
Theorem handler_success
    (env : ProcessEnv) (clock : GeoApi.Clock) (req : GeoApi.Request)
    (res : GeoApi.Response) :
  transportHeaders (GeoApi.headers req) ->
  GeoApi.method req = "GET" \/ GeoApi.method req = "POST" ->
  GeoApi.query req <> None \/ development env = true ->
  exists res' c debug,
    GeoApi.handler env clock req res = (res', Return tt) /\
    GeoApi.statusCode res' = 200 /\
    GeoApi.sent res' = Some (GeoApi.OkBody c (GeoApi.isoNow clock) debug) /\
    GeoApi.detectCountry (GeoApi.headers req) = Return c /\
    GeoApi.alpha2_test c = true /\
    In ("Content-Type", "application/json") (GeoApi.resHeaders res') /\
    In ("Cache-Control", "no-cache, no-store, must-revalidate")
       (GeoApi.resHeaders res') /\
    In ("Pragma", "no-cache") (GeoApi.resHeaders res') /\
    In ("Expires", "0") (GeoApi.resHeaders res') /\
    In ("X-Content-Type-Options", "nosniff") (GeoApi.resHeaders res').
Proof.
  intros Hh Hmethod Hq.
  destruct (getClientIP_from_transport (GeoApi.headers req) GeoApi.ipHeaders
              ipHeaders_lowercase Hh) as (ip & Hip & _).
  change (GeoApi.getClientIP_from GeoApi.ipHeaders (GeoApi.headers req))
    with (GeoApi.getClientIP (GeoApi.headers req)) in Hip.
  destruct (detectCountry_converts _ (transport_converts _ Hh)) as (c & Hc & Vc).
  destruct (isDebugMode_returns env req Hq) as [d Hd].
  destruct (tryBlock_returns env clock req (JStr ip) res c d Hc Hd)
    as (res' & Htry & Hstatus & Hsent & Hheaders).
  exists res', c. eexists.
  split.
  { unfold GeoApi.handler, GeoApi.andThen, GeoApi.lift. rewrite Hip.
    assert (Hgate : negb (GeoApi.method req =? "GET") &&
                    negb (GeoApi.method req =? "POST") = false)
      by (destruct Hmethod as [-> | ->]; reflexivity).
    rewrite Hgate. unfold GeoApi.tryCatch. now rewrite Htry. }
  split; [exact Hstatus |]. split; [exact Hsent |]. split; [exact Hc |].
  split; [now apply validCode_alpha2 |].
  rewrite Hheaders.
  repeat split;
    repeat first [ apply putHeader_In
                 | apply putHeader_keeps; [discriminate |] ].
Qed.

Lemma handler_success_witness :
  exists res' c debug,
    GeoApi.handler Sample.production_env Sample.noon Demo.debug_post
                   GeoApi.freshResponse = (res', Return tt) /\
    GeoApi.statusCode res' = 200 /\
    GeoApi.sent res' = Some (GeoApi.OkBody c (GeoApi.isoNow Sample.noon) debug) /\
    GeoApi.detectCountry (GeoApi.headers Demo.debug_post) = Return c /\
    GeoApi.alpha2_test c = true /\
    In ("Content-Type", "application/json") (GeoApi.resHeaders res') /\
    In ("Cache-Control", "no-cache, no-store, must-revalidate")
       (GeoApi.resHeaders res') /\
    In ("Pragma", "no-cache") (GeoApi.resHeaders res') /\
    In ("Expires", "0") (GeoApi.resHeaders res') /\
    In ("X-Content-Type-Options", "nosniff") (GeoApi.resHeaders res').
Proof.
  apply (handler_success Sample.production_env Sample.noon Demo.debug_post
           GeoApi.freshResponse).
  - repeat constructor.
  - right; reflexivity.
  - left; discriminate.
Defined.

(** X11. When [handler] answers with the success body, the body has a debug
    payload exactly when the debug mode is on ([NODE_ENV] is [development],
    or [query.debug] or the header [x-debug] is the string ['true']). The
    payload repeats the detected code, and of the request headers it shows
    those, with their values, whose lowercase name contains [vercel],
    [country], [ip] or [forwarded], and no other: never [authorization] or
    [cookie]. *)
Theorem handler_debug_payload
    (env : ProcessEnv) (clock : GeoApi.Clock) (req : GeoApi.Request)
    (res res' : GeoApi.Response) (c ts : string)
    (debug : option GeoApi.DebugInfo) :
  GeoApi.handler env clock req res = (res', Return tt) ->
  GeoApi.sent res' = Some (GeoApi.OkBody c ts debug) ->
  (debug = None <-> GeoApi.isDebugMode env req = Return false) /\
  (forall info, debug = Some info ->
     GeoApi.dbg_detected info = c /\
     forall k v, In (k, v) (GeoApi.dbg_headers info) ->
       In k (keys (GeoApi.headers req)) /\
       GeoApi.debugHeader k = true /\
       v = get (GeoApi.headers req) k) /\
  GeoApi.debugHeader "authorization" = false /\
  GeoApi.debugHeader "cookie" = false.
Proof.
  intros Hrun Hsent.
  split; [| split; [| split; reflexivity]];
    revert Hrun;
    unfold GeoApi.handler, GeoApi.andThen, GeoApi.lift, GeoApi.tryCatch,
      GeoApi.tryBlock, GeoApi.catchBlock, GeoApi.setHeader, GeoApi.statusJson;
    (destruct (GeoApi.getClientIP (GeoApi.headers req)) as [ip | e];
       [| discriminate]);
    (destruct (negb (GeoApi.method req =? "GET") &&
               negb (GeoApi.method req =? "POST"));
       [ intros E; injection E as <-; discriminate |]);
    (destruct (GeoApi.detectCountry (GeoApi.headers req)) as [c0 | e0];
       [| intros E; injection E as <-; discriminate]);
    (destruct (GeoApi.isDebugMode env req) as [d | e1];
       [| intros E; injection E as <-; discriminate]);
    intros E; injection E as <-; cbn in Hsent;
    injection Hsent as <- _ <-.
  - destruct d; split; intros H; try discriminate; reflexivity.
  - intros info Hinfo. destruct d; [| discriminate].
    injection Hinfo as <-. split; [reflexivity |].
    intros k v Hin. cbn [GeoApi.debugInfo GeoApi.dbg_headers] in Hin.
    apply in_map_iff in Hin as (key & Hkv & Hkey).
    injection Hkv as <- <-.
    apply filter_In in Hkey as [Hk Hd]. now repeat split.
Qed.

Lemma handler_debug_payload_witness :
  exists info,
    GeoApi.sent (fst (GeoApi.handler Sample.production_env Sample.noon
                        Demo.debug_post GeoApi.freshResponse)) =
      Some (GeoApi.OkBody "PT" (GeoApi.isoNow Sample.noon) (Some info)) /\
    List.map fst (GeoApi.dbg_headers info) =
      ["x-vercel-ip-country"; "x-forwarded-for"] /\
    GeoApi.dbg_detected info = "PT" /\
    forall k v, In (k, v) (GeoApi.dbg_headers info) ->
      In k (keys (GeoApi.headers Demo.debug_post)) /\
      GeoApi.debugHeader k = true /\
      v = get (GeoApi.headers Demo.debug_post) k.
Proof.
  eexists. split; [reflexivity |]. split; [reflexivity |].
  apply (proj1 (proj2 (handler_debug_payload Sample.production_env Sample.noon
           Demo.debug_post GeoApi.freshResponse _ "PT" _ _
           eq_refl eq_refl))).
  reflexivity.
Defined.

(* ================================================================== *)
(** * Further properties of the URL validator *)

(** What an accepted value went through. *)
Lemma isValidUrl_true_inv
    (newURL : string -> Result URL.t) (env : ProcessEnv) (url : JsValue) :
  Utils.isValidUrlWith newURL env url = Return true ->
  exists s u,
    url = JStr s /\ s <> "" /\ s <> "#" /\ newURL s = Return u /\
    existsb (String.eqb (URL.protocol u)) ["http:"; "https:"] &&
    negb (URL.hostname u =? "") &&
    negb (production env &&
          Utils.blockedHost (Str.toLowerCase (URL.hostname u))) = true.
Proof.
  intros H.
  destruct url as [| | b | z t | s | items | conv]; try discriminate;
    try (destruct b; discriminate); try (destruct z; discriminate).
  destruct (String.eqb_spec s "") as [-> | Hne]; [discriminate |].
  destruct (String.eqb_spec s "#") as [-> | Hhash]; [discriminate |].
  destruct (newURL s) as [u | e] eqn:Hs.
  - rewrite (isValidUrl_parsed newURL env s u Hne Hhash Hs) in H.
    injection H as H. now exists s, u.
  - rewrite (isValidUrl_unparsed newURL env s e Hs) in H. discriminate.
Qed.

(** X12. [isValidUrl] answers [true] exactly for a string, neither empty
    nor ["#"], that [new URL] parses to a URL whose protocol is [http:] or
    [https:] and whose host name is not empty and, in production mode, not
    on the list of private hosts. Nothing else is accepted: no other scheme,
    no value that is not a string. *)
Theorem isValidUrl_accepts_exactly
    (newURL : string -> Result URL.t) (env : ProcessEnv) (url : JsValue) :
  Utils.isValidUrlWith newURL env url = Return true <->
  exists s u,
    url = JStr s /\ s <> "" /\ s <> "#" /\ newURL s = Return u /\
    (URL.protocol u = "http:" \/ URL.protocol u = "https:") /\
    URL.hostname u <> "" /\
    (production env = true ->
     ~ listedHost (Str.toLowerCase (URL.hostname u))).
Proof.
  split.
  - intros H. apply isValidUrl_true_inv in H
      as (s & u & -> & Hne & Hhash & Hs & Hb).
    apply andb_prop in Hb as [Hb Hblock]. apply andb_prop in Hb as [Hp Hh].
    exists s, u. split; [reflexivity |]. repeat (split; [assumption |]).
    split; [| split].
    + cbn [existsb] in Hp. rewrite !orb_true_iff, !String.eqb_eq in Hp.
      destruct Hp as [Hp | [Hp | Hp]]; [now left | now right | discriminate].
    + apply String.eqb_neq. now apply negb_true_iff.
    + intros Hprod Hlisted. apply blockedHost_listed in Hlisted.
      rewrite Hprod, Hlisted in Hblock. discriminate.
  - intros (s & u & -> & Hne & Hhash & Hs & Hp & Hh & Hblock).
    rewrite (isValidUrl_parsed newURL env s u Hne Hhash Hs).
    apply String.eqb_neq in Hh. rewrite Hh.
    assert (Hp' : existsb (String.eqb (URL.protocol u)) ["http:"; "https:"]
                  = true) by (destruct Hp as [-> | ->]; reflexivity).
    rewrite Hp'. cbn [andb negb]. f_equal. apply negb_true_iff.
    destruct (production env); [| reflexivity].
    destruct (Utils.blockedHost (Str.toLowerCase (URL.hostname u))) eqn:Hb;
      [| reflexivity].
    apply blockedHost_listed in Hb. now destruct (Hblock eq_refl).
Qed.

(** X13. Production mode is the strict one: a value that [isValidUrl]
    accepts when [NODE_ENV] is [production] is accepted whatever [NODE_ENV]
    is. *)
Theorem isValidUrl_production_is_strictest
    (newURL : string -> Result URL.t) (env env' : ProcessEnv) (url : JsValue) :
  production env = true ->
  Utils.isValidUrlWith newURL env url = Return true ->
  Utils.isValidUrlWith newURL env' url = Return true.
Proof.
  intros Hprod H. apply isValidUrl_true_inv in H
    as (s & u & -> & Hne & Hhash & Hs & Hb).
  rewrite (isValidUrl_parsed newURL env' s u Hne Hhash Hs). f_equal.
  rewrite Hprod in Hb.
  destruct (existsb (String.eqb (URL.protocol u)) ["http:"; "https:"]);
    [| discriminate].
  destruct (negb (URL.hostname u =? "")); [| discriminate].
  cbn [andb] in Hb |- *. apply negb_true_iff in Hb. rewrite Hb.
  now rewrite andb_false_r.
Qed.

Lemma isValidUrl_production_is_strictest_witness :
  Utils.isValidUrl Sample.production_env (JStr "https://t.co/y5IrJWOLzN") =
    Return true /\
  Utils.isValidUrl Sample.development_env (JStr "https://t.co/y5IrJWOLzN") =
    Return true /\
  Utils.isValidUrl {| NODE_ENV := None |} (JStr "https://t.co/y5IrJWOLzN") =
    Return true.
Proof.
  split; [reflexivity |]. split.
  - apply (isValidUrl_production_is_strictest URL.construct
             Sample.production_env Sample.development_env); reflexivity.
  - apply (isValidUrl_production_is_strictest URL.construct
             Sample.production_env {| NODE_ENV := None |}); reflexivity.
Defined.

(* ================================================================== *)
(** * The outcomes of the handler *)

(** X14. On a request whose header values are strings or arrays of strings
    [handler] always returns, having sent one of three answers, and which
    one is decided by the method and by [query]: status 405 with the
    country ["XX"] when the method is neither [GET] nor [POST]; otherwise
    status 500 with the country ["XX"] and the message ['An error occurred']
    when [req.query] is missing and [NODE_ENV] is not [development];
    otherwise status 200 with the code [detectCountry] returns. *)
Theorem handler_outcomes
    (env : ProcessEnv) (clock : GeoApi.Clock) (req : GeoApi.Request)
    (res : GeoApi.Response) :
  transportHeaders (GeoApi.headers req) ->
  exists res',
    GeoApi.handler env clock req res = (res', Return tt) /\
    ((GeoApi.method req <> "GET" /\ GeoApi.method req <> "POST" /\
      GeoApi.statusCode res' = 405 /\
      GeoApi.sent res' =
        Some (GeoApi.ErrorBody "Method not allowed" "XX" None)) \/
     ((GeoApi.method req = "GET" \/ GeoApi.method req = "POST") /\
      GeoApi.query req = None /\ development env = false /\
      GeoApi.statusCode res' = 500 /\
      GeoApi.sent res' =
        Some (GeoApi.ErrorBody "Internal server error" "XX"
                (Some "An error occurred"))) \/
     ((GeoApi.method req = "GET" \/ GeoApi.method req = "POST") /\
      (GeoApi.query req <> None \/ development env = true) /\
      GeoApi.statusCode res' = 200 /\
      exists c debug,
        GeoApi.detectCountry (GeoApi.headers req) = Return c /\
        GeoApi.sent res' =
          Some (GeoApi.OkBody c (GeoApi.isoNow clock) debug))).
Proof.
  intros Hh.
  destruct (getClientIP_from_transport (GeoApi.headers req) GeoApi.ipHeaders
              ipHeaders_lowercase Hh) as (ip & Hip & _).
  change (GeoApi.getClientIP_from GeoApi.ipHeaders (GeoApi.headers req))
    with (GeoApi.getClientIP (GeoApi.headers req)) in Hip.
  destruct (detectCountry_converts _ (transport_converts _ Hh)) as (c & Hc & _).
  unfold GeoApi.handler, GeoApi.andThen, GeoApi.lift, GeoApi.tryCatch,
    GeoApi.tryBlock, GeoApi.catchBlock, GeoApi.setHeader, GeoApi.statusJson,
    GeoApi.isDebugMode, GeoApi.queryDebug, development.
  rewrite Hip, Hc.
  destruct (String.eqb_spec (GeoApi.method req) "GET") as [Hget | Hget];
    [| destruct (String.eqb_spec (GeoApi.method req) "POST") as [Hpost | Hpost]];
    cbn [negb andb].
  3: { eexists. split; [reflexivity |]. left. now repeat split. }
  all: assert (Hmethod : GeoApi.method req = "GET" \/ GeoApi.method req = "POST")
         by tauto;
       destruct (env_is env "development") eqn:Hdev;
       [ eexists; split; [reflexivity |]; right; right;
         split; [exact Hmethod |]; split; [now right |];
         split; [reflexivity |]; exists c; eexists; split; reflexivity
       | destruct (GeoApi.query req) as [q |] eqn:Hq; cbn [bind];
         [ destruct (strictEqStr (get q "debug") "true");
           eexists; (split; [reflexivity |]); right; right;
           (split; [exact Hmethod |]); (split; [left; discriminate |]);
           (split; [reflexivity |]); exists c; eexists; split; reflexivity
         | eexists; split; [reflexivity |]; right; left;
           now repeat split ] ].
Qed.

Lemma handler_outcomes_witness :
  (exists res',
     GeoApi.handler Sample.production_env Sample.noon Demo.lowercase_get
                    GeoApi.freshResponse = (res', Return tt) /\
     GeoApi.statusCode res' = 405) /\
  (exists res',
     GeoApi.handler Sample.production_env Sample.noon Sample.without_query
                    GeoApi.freshResponse = (res', Return tt) /\
     GeoApi.statusCode res' = 500) /\
  (exists res',
     GeoApi.handler Sample.development_env Sample.noon Sample.without_query
                    GeoApi.freshResponse = (res', Return tt) /\
     GeoApi.statusCode res' = 200).
Proof.
  split; [| split].
  - destruct (handler_outcomes Sample.production_env Sample.noon
                Demo.lowercase_get GeoApi.freshResponse)
      as (res' & Hrun & _); [repeat constructor |].
    exists res'. split; [exact Hrun |].
    now injection Hrun as <-.
  - destruct (handler_outcomes Sample.production_env Sample.noon
                Sample.without_query GeoApi.freshResponse)
      as (res' & Hrun & _); [repeat constructor |].
    exists res'. split; [exact Hrun |].
    now injection Hrun as <-.
  - destruct (handler_outcomes Sample.development_env Sample.noon
                Sample.without_query GeoApi.freshResponse)
      as (res' & Hrun & _); [repeat constructor |].
    exists res'. split; [exact Hrun |].
    now injection Hrun as <-.
Defined.
